(** * web_scraper: a shallow embedding of [models.py], [helper.py] and [main.py]

    The development follows the three source files:
    - [Py]: the fragment of Python's data model the program relies on
      (JSON-shaped values, truthiness, subscripting, [dict.get], [str()], exceptions);
    - [Models]: [models.py], the two record shapes and the LinkedIn normaliser;
    - [Runtime]: the outside world (files, the Apify platform, the GitHub API)
      as an environment record, and a small trace-and-exception monad;
    - [Helper], [Linkedin], [GitHub]: [helper.py] and the two scraper classes
      of [main.py];
    - the theorems, grouped by the component they talk about. *)

From stdpp Require Import base list strings pretty.
From Stdlib Require Import ZArith Lia Ascii.

Local Open Scope Z_scope.

Set Warnings "-register-all".

(* ===================================================================== *)
(** * Python values *)
(* ===================================================================== *)

Module Py.

(** What [json.load] / [response.json()] / an Apify dataset item can hold.
    A [dict] keeps insertion order, so it is an association list; keys are
    strings (JSON objects).  A string is a sequence of code points below 256.
    A float is identified by its [repr()] text (["0.0"], ["1.5"], ["nan"], ...),
    which is all the program ever observes of it. *)
Inductive value : Type :=
  | VNone
  | VBool (b : bool)
  | VInt (n : Z)
  | VFloat (repr : string)
  | VStr (s : string)
  | VList (l : list value)
  | VDict (d : list (string * value)).

(** The exceptions that can travel through the program, each with the text
    [str(e)] gives (for a [KeyError], the [repr] of the key).  Every one of
    them derives from [Exception]; [RequestException] stands for the whole
    [requests.exceptions] hierarchy ([HTTPError], [ConnectionError],
    [Timeout], ...), which the program never tells apart. *)
Inductive exn : Type :=
  | FileNotFoundError (msg : string)
  | JSONDecodeError (msg : string)
  | KeyError (key_repr : string)
  | IndexError (msg : string)
  | TypeError (msg : string)
  | AttributeError (msg : string)
  | UnboundLocalError (msg : string)
  | ApifyApiError (msg : string)
  | RequestException (msg : string)
  | OtherException (msg : string).

Inductive outcome (A : Type) : Type :=
  | Return (a : A)
  | Raise (e : exn).
Arguments Return {A} a.
Arguments Raise {A} e.

Definition obind {A B} (x : outcome A) (f : A -> outcome B) : outcome B :=
  match x with
  | Return a => f a
  | Raise e => Raise e
  end.

Notation "'try!' x := c1 'in' c2" := (obind c1 (fun x => c2))
  (at level 10, x name, c1 at level 100, c2 at level 200).

(** ** Dictionaries *)

Fixpoint dict_lookup (k : string) (d : list (string * value)) : option value :=
  match d with
  | [] => None
  | (k', v) :: d' => if String.eqb k k' then Some v else dict_lookup k d'
  end.

(** [k in d] *)
Definition dict_mem (k : string) (d : list (string * value)) : bool :=
  match dict_lookup k d with Some _ => true | None => false end.

(** [d.get(k, default)] *)
Definition dict_get (d : list (string * value)) (k : string) (default : value) : value :=
  match dict_lookup k d with Some v => v | None => default end.

(** [del d[k]] for a key that may or may not be there. *)
Fixpoint dict_delete (k : string) (d : list (string * value)) : list (string * value) :=
  match d with
  | [] => []
  | (k', v) :: d' =>
      if String.eqb k k' then dict_delete k d' else (k', v) :: dict_delete k d'
  end.

(** [d[k] = v]: an existing key keeps its position. *)
Fixpoint dict_set (k : string) (v : value) (d : list (string * value)) : list (string * value) :=
  match d with
  | [] => [(k, v)]
  | (k', v') :: d' =>
      if String.eqb k k' then (k, v) :: d' else (k', v') :: dict_set k v d'
  end.

(** ** [repr] and [str] *)

Definition hex_digit (n : N) : ascii :=
  ascii_of_N (if (n <? 10)%N then 48 + n else 87 + n)%N.

Definition quote1 : ascii := "'"%char.
Definition quote2 : ascii := ascii_of_N 34.
Definition backslash : ascii := ascii_of_N 92.

Fixpoint string_mem (c : ascii) (s : string) : bool :=
  match s with
  | EmptyString => false
  | String c' s' => Ascii.eqb c c' || string_mem c s'
  end.

(** [str.isprintable] on one code point below 256. *)
Definition printable (c : ascii) : bool :=
  let n := N_of_ascii c in
  ((32 <=? n) && (n <=? 126) || (161 <=? n) && negb (n =? 173))%N.

Definition repr_char (q : ascii) (c : ascii) : string :=
  let n := N_of_ascii c in
  if Ascii.eqb c q || Ascii.eqb c backslash then String backslash (String c "")
  else if (n =? 9)%N then String backslash "t"
  else if (n =? 10)%N then String backslash "n"
  else if (n =? 13)%N then String backslash "r"
  else if printable c then String c ""
  else String backslash (String "x" (String (hex_digit (n / 16)) (String (hex_digit (n mod 16)) ""))).

Fixpoint repr_chars (q : ascii) (s : string) : string :=
  match s with
  | EmptyString => ""
  | String c s' => repr_char q c +:+ repr_chars q s'
  end.

(** [repr(s)]: single quotes unless the text has a single and no double quote. *)
Definition repr_str (s : string) : string :=
  let q := if string_mem quote1 s && negb (string_mem quote2 s) then quote2 else quote1 in
  String q (repr_chars q s +:+ String q "").

Definition join (sep : string) (l : list string) : string :=
  match l with
  | [] => ""
  | x :: l' => fold_left (fun acc y => acc +:+ sep +:+ y) l' x
  end.

Fixpoint repr (v : value) : string :=
  match v with
  | VNone => "None"
  | VBool b => if b then "True" else "False"
  | VInt n => pretty n
  | VFloat r => r
  | VStr s => repr_str s
  | VList l => "[" +:+ join ", " (map repr l) +:+ "]"
  | VDict d =>
      "{" +:+ join ", " (map (fun kv => repr_str (fst kv) +:+ ": " +:+ repr (snd kv)) d) +:+ "}"
  end.

(** [str(v)], which is also what an f-string field [{v}] renders. *)
Definition str (v : value) : string :=
  match v with
  | VStr s => s
  | _ => repr v
  end.

(** ** Truthiness, subscripting, attribute access *)

(** [bool(v)] *)
Definition truthy (v : value) : bool :=
  match v with
  | VNone => false
  | VBool b => b
  | VInt n => negb (n =? 0)
  | VFloat r => negb (String.eqb r "0.0" || String.eqb r "-0.0")
  | VStr s => negb (String.eqb s "")
  | VList l => match l with [] => false | _ => true end
  | VDict d => match d with [] => false | _ => true end
  end.

(** [type(v).__name__] *)
Definition type_name (v : value) : string :=
  match v with
  | VNone => "NoneType"
  | VBool _ => "bool"
  | VInt _ => "int"
  | VFloat _ => "float"
  | VStr _ => "str"
  | VList _ => "list"
  | VDict _ => "dict"
  end.

Definition not_subscriptable (v : value) : exn :=
  TypeError ("'" +:+ type_name v +:+ "' object is not subscriptable").

Definition no_item_assignment (v : value) : exn :=
  TypeError ("'" +:+ type_name v +:+ "' object does not support item assignment").

Definition no_attribute (v : value) (attr : string) : exn :=
  AttributeError ("'" +:+ type_name v +:+ "' object has no attribute '" +:+ attr +:+ "'").

(** [v[k]] for a string [k]. *)
Definition getitem_str (v : value) (k : string) : outcome value :=
  match v with
  | VDict d =>
      match dict_lookup k d with
      | Some x => Return x
      | None => Raise (KeyError (repr_str k))
      end
  | VList _ => Raise (TypeError "list indices must be integers or slices, not str")
  | VStr _ => Raise (TypeError "string indices must be integers, not 'str'")
  | _ => Raise (not_subscriptable v)
  end.

(** [v[0]]; a dict of this model has string keys only, so [0] is never one. *)
Definition getitem_0 (v : value) : outcome value :=
  match v with
  | VList (x :: _) => Return x
  | VList [] => Raise (IndexError "list index out of range")
  | VStr (String c _) => Return (VStr (String c EmptyString))
  | VStr EmptyString => Raise (IndexError "string index out of range")
  | VDict _ => Raise (KeyError "0")
  | _ => Raise (not_subscriptable v)
  end.

(** [v[k] = x] for a string [k]; the result is [v] after the assignment. *)
Definition setitem_str (v : value) (k : string) (x : value) : outcome value :=
  match v with
  | VDict d => Return (VDict (dict_set k x d))
  | VList _ => Raise (TypeError "list indices must be integers or slices, not str")
  | _ => Raise (no_item_assignment v)
  end.

(** [v.get(k, default)]: only a dict has the method. *)
Definition method_get (v : value) (k : string) (default : value) : outcome value :=
  match v with
  | VDict d => Return (dict_get d k default)
  | _ => Raise (no_attribute v "get")
  end.

(** ** [str.strip()] *)

(** [str.isspace] on one code point below 256. *)
Definition is_space (c : ascii) : bool :=
  let n := N_of_ascii c in
  ((9 <=? n) && (n <=? 13) || (28 <=? n) && (n <=? 32) || (n =? 133) || (n =? 160))%N.

Fixpoint lstrip (s : string) : string :=
  match s with
  | EmptyString => ""
  | String c s' => if is_space c then lstrip s' else s
  end.

Fixpoint rstrip (s : string) : string :=
  match s with
  | EmptyString => ""
  | String c s' =>
      match rstrip s' with
      | EmptyString => if is_space c then "" else String c ""
      | r => String c r
      end
  end.

Definition strip (s : string) : string := rstrip (lstrip s).

(** ** [str.lower()], [needle in haystack], [str(exception)] *)

Definition lower_char (c : ascii) : ascii :=
  let n := N_of_ascii c in
  if ((65 <=? n) && (n <=? 90) || (192 <=? n) && (n <=? 222) && negb (n =? 215))%N
  then ascii_of_N (n + 32) else c.

Fixpoint lower (s : string) : string :=
  match s with
  | EmptyString => ""
  | String c s' => String (lower_char c) (lower s')
  end.

Fixpoint contains (needle hay : string) : bool :=
  String.prefix needle hay ||
  match hay with
  | EmptyString => false
  | String _ hay' => contains needle hay'
  end.

Definition exn_str (e : exn) : string :=
  match e with
  | FileNotFoundError msg | JSONDecodeError msg | KeyError msg | IndexError msg
  | TypeError msg | AttributeError msg | UnboundLocalError msg | ApifyApiError msg
  | RequestException msg | OtherException msg => msg
  end.

End Py.

Import Py.

(* ===================================================================== *)
(** * models.py *)
(* ===================================================================== *)

Module Models.

(** [@dataclass LinkedInProfile].  The annotations ([str], [int]) are not
    enforced at run time, so every field holds whatever value was stored. *)
Record LinkedInProfile : Type := {
  name : value;
  position : value;
  company : value;
  location : value;
  connections : value;
  education : value
}.

(** [@dataclass GitHubProfile] *)
Record GitHubProfile : Type := {
  username : value;
  full_name : value;
  bio : value;
  public_repos : value;
  followers : value
}.

Definition raw_record : Type := list (string * value).

(** [LinkedInProfile._get_position] *)
Definition _get_position (profile : raw_record) : outcome value :=
  if dict_mem "positions" profile && truthy (dict_get profile "positions" VNone) then
    try! positions := getitem_str (VDict profile) "positions" in
    try! first := getitem_0 positions in
    method_get first "title" (VStr "")
  else Return (dict_get profile "occupation" (VStr "")).

(** [LinkedInProfile._get_company] *)
Definition _get_company (profile : raw_record) : outcome value :=
  if dict_mem "positions" profile && truthy (dict_get profile "positions" VNone) then
    try! positions := getitem_str (VDict profile) "positions" in
    try! first := getitem_0 positions in
    method_get first "companyName" (VStr "")
  else Return (VStr "").

(** [LinkedInProfile._get_education] *)
Definition _get_education (profile : raw_record) : outcome value :=
  if dict_mem "educations" profile && truthy (dict_get profile "educations" VNone) then
    try! educations := getitem_str (VDict profile) "educations" in
    try! first := getitem_0 educations in
    method_get first "schoolName" (VStr "")
  else Return (VStr "").

(** [LinkedInProfile.from_api_response]; the keyword arguments are evaluated
    in the order they are written. *)
Definition from_api_response (profile : raw_record) : outcome LinkedInProfile :=
  let name :=
    VStr (strip (str (dict_get profile "firstName" (VStr "")) +:+ " " +:+
                 str (dict_get profile "lastName" (VStr "")))) in
  try! position := _get_position profile in
  try! company := _get_company profile in
  let location := dict_get profile "geoLocationName" (VStr "") in
  let connections := dict_get profile "connectionsCount" (VInt 0) in
  try! education := _get_education profile in
  Return {| name := name; position := position; company := company;
            location := location; connections := connections;
            education := education |}.

(** [profile.__dict__]: the fields in declaration order. *)
Definition LinkedInProfile_dict (p : LinkedInProfile) : list (string * value) :=
  [("name", name p); ("position", position p); ("company", company p);
   ("location", location p); ("connections", connections p);
   ("education", education p)].

End Models.

Import Models.

(* ===================================================================== *)
(** * The outside world *)
(* ===================================================================== *)

Module Runtime.

Inductive level : Type := INFO | ERROR.

(** What a run leaves behind, in the order it happened. *)
Inductive event : Type :=
  | EvLog (lvl : level) (msg : string)
  | EvPrint (msg : string)
  | EvActorCall (actor_name run_input : value)
  | EvListItems (dataset_id : value) (offset limit : Z)
  | EvHttpGet (url : string)
  | EvWriteFile (path content : string).

Definition trace : Type := list event.

(** A [requests.Response]: what the program reads of it. *)
Record Response : Type := {
  status_code : Z;
  reason : string;
  url : string;
  json : outcome value
}.

(** The collaborators the program talks to.  The remote ones may answer
    differently from one call to the next, so they see the trace so far. *)
Record Env : Type := {
  (** [open(path)] followed by [json.load] *)
  load_json : string -> outcome value;
  (** [ApifyClient.actor(name).call(run_input=...)] *)
  actor_call_api : trace -> value -> value -> outcome value;
  (** [DatasetClient.list_items(offset=..., limit=...).items] *)
  list_items_api : trace -> value -> Z -> Z -> outcome (list value);
  (** [requests.get(url, headers=...)] *)
  requests_get : trace -> string -> outcome Response
}.

(** The file system as a writer meets it.  [disk_open t path] is
    [open(path, "w", ...)] after the events [t]: it creates or truncates
    the file, or raises ([FileNotFoundError] for a missing directory,
    [PermissionError], ...).  [disk_write path written chunk] is
    [file.write(chunk)] on the file that has taken [written] so far; it
    raises when the chunk cannot be encoded or stored.  [disk_close path
    written] is the [close()] that ends the [with] block. *)
Record Disk : Type := {
  disk_open : trace -> string -> outcome unit;
  disk_write : string -> string -> string -> outcome unit;
  disk_close : string -> string -> outcome unit
}.

(** Computations that log, call out and may raise. *)
Definition M (A : Type) : Type := trace -> outcome A * trace.

Definition ret {A} (a : A) : M A := fun t => (Return a, t).
Definition raise {A} (e : exn) : M A := fun t => (Raise e, t).
Definition lift {A} (o : outcome A) : M A := fun t => (o, t).
Definition emit (ev : event) : M unit := fun t => (Return tt, t ++ [ev]).

Definition bind {A B} (c : M A) (f : A -> M B) : M B :=
  fun t =>
    match c t with
    | (Return a, t') => f a t'
    | (Raise e, t') => (Raise e, t')
    end.

(** [try: c except <handles>: h] *)
Definition catch {A} (c : M A) (handles : exn -> bool) (h : exn -> M A) : M A :=
  fun t =>
    match c t with
    | (Raise e, t') => if handles e then h e t' else (Raise e, t')
    | r => r
    end.

Notation "'do!' x := c1 'in' c2" := (bind c1 (fun x => c2))
  (at level 10, x name, c1 at level 100, c2 at level 200).
Notation "c1 ;;; c2" := (bind c1 (fun _ => c2))
  (at level 100, c2 at level 200, right associativity).

Definition logging_info (msg : string) : M unit := emit (EvLog INFO msg).
Definition logging_error (msg : string) : M unit := emit (EvLog ERROR msg).
Definition print (msg : string) : M unit := emit (EvPrint msg).

End Runtime.

Import Runtime.

(* ===================================================================== *)
(** * helper.py *)
(* ===================================================================== *)

Module Helper.

(** [get_input_cookie] *)
Definition get_input_cookie (env : Env) (filename : string) : M value :=
  do! actor_input := lift (load_json env filename) in
  lift (getitem_str actor_input "cookie").

(** [get_actor_config]: the right-hand side of the assignment is evaluated
    before [config["actor_input"]]; the dict stored under ["actor_input"]
    is updated in place, which [config] sees. *)
Definition get_actor_config (env : Env) (config_path : string) : M value :=
  do! config := lift (load_json env config_path) in
  do! cookie := get_input_cookie env "input.JSON" in
  do! actor_input := lift (getitem_str config "actor_input") in
  do! actor_input' := lift (setitem_str actor_input "cookie" cookie) in
  lift (setitem_str config "actor_input" actor_input').

End Helper.

(* ===================================================================== *)
(** * Serialisation: [json.dumps(..., indent=2)] and [csv.DictWriter] *)
(* ===================================================================== *)

Module Json.

Definition hex4 (n : N) : string :=
  String (hex_digit (n / 4096)) (String (hex_digit (n / 256 mod 16))
    (String (hex_digit (n / 16 mod 16)) (String (hex_digit (n mod 16)) ""))).

(** One character of a JSON string with [ensure_ascii=True]. *)
Definition escape_char (c : ascii) : string :=
  let n := N_of_ascii c in
  if Ascii.eqb c quote2 || Ascii.eqb c backslash then String backslash (String c "")
  else if (n =? 8)%N then String backslash "b"
  else if (n =? 12)%N then String backslash "f"
  else if (n =? 10)%N then String backslash "n"
  else if (n =? 13)%N then String backslash "r"
  else if (n =? 9)%N then String backslash "t"
  else if ((32 <=? n) && (n <=? 126))%N then String c ""
  else String backslash (String "u" (hex4 n)).

Fixpoint escape (s : string) : string :=
  match s with
  | EmptyString => ""
  | String c s' => escape_char c +:+ escape s'
  end.

Definition encode_str (s : string) : string :=
  String quote2 (escape s +:+ String quote2 "").

Definition encode_float (r : string) : string :=
  if String.eqb r "nan" then "NaN"
  else if String.eqb r "inf" then "Infinity"
  else if String.eqb r "-inf" then "-Infinity"
  else r.

Fixpoint spaces (n : nat) : string :=
  match n with
  | O => ""
  | S n' => String " " (spaces n')
  end.

Definition newline : string := String (ascii_of_N 10) "".

(** The pretty printer at nesting depth [depth], two spaces per level. *)
Fixpoint encode (depth : nat) (v : value) : string :=
  let inner := newline +:+ spaces (2 * S depth) in
  let close := newline +:+ spaces (2 * depth) in
  match v with
  | VNone => "null"
  | VBool b => if b then "true" else "false"
  | VInt n => pretty n
  | VFloat r => encode_float r
  | VStr s => encode_str s
  | VList [] => "[]"
  | VList l => "[" +:+ inner +:+ join ("," +:+ inner) (map (encode (S depth)) l) +:+ close +:+ "]"
  | VDict [] => "{}"
  | VDict d =>
      "{" +:+ inner +:+
      join ("," +:+ inner)
        (map (fun kv => encode_str (fst kv) +:+ ": " +:+ encode (S depth) (snd kv)) d) +:+
      close +:+ "}"
  end.

(** [json.dumps(v, indent=2)] *)
Definition dumps (v : value) : string := encode 0 v.

End Json.

Module Csv.

Definition CRLF : string := String (ascii_of_N 13) (String (ascii_of_N 10) "").

(** The text of one field: [None] is empty, a string is itself, anything
    else goes through [str()]. *)
Definition field_text (v : value) : string :=
  match v with
  | VNone => ""
  | _ => str v
  end.

(** [QUOTE_MINIMAL] of the [excel] dialect: the delimiter, the quote
    character and the line-break characters force quoting. *)
Definition special (c : ascii) : bool :=
  Ascii.eqb c ","%char || Ascii.eqb c quote2 ||
  Ascii.eqb c (ascii_of_N 13) || Ascii.eqb c (ascii_of_N 10).

Fixpoint needs_quotes (s : string) : bool :=
  match s with
  | EmptyString => false
  | String c s' => special c || needs_quotes s'
  end.

(** [doublequote=True] *)
Fixpoint double_quotes (s : string) : string :=
  match s with
  | EmptyString => ""
  | String c s' =>
      if Ascii.eqb c quote2 then String c (String c (double_quotes s'))
      else String c (double_quotes s')
  end.

Definition field (s : string) : string :=
  if needs_quotes s then String quote2 (double_quotes s +:+ String quote2 "") else s.

(** [writer.writerow(fields)]: a record made of one empty field is quoted,
    so that it is not read back as an empty line. *)
Definition writerow (fields : list value) : string :=
  let texts := map field_text fields in
  match texts with
  | [EmptyString] => String quote2 (String quote2 "") +:+ CRLF
  | _ => join "," (map field texts) +:+ CRLF
  end.

(** [DictWriter._dict_to_list] with [extrasaction="raise"], [restval=""]. *)
Definition dict_to_list (fieldnames : list string) (rowdict : list (string * value))
  : outcome (list value) :=
  if forallb (fun kv => existsb (String.eqb (fst kv)) fieldnames) rowdict
  then Return (map (fun k => dict_get rowdict k (VStr "")) fieldnames)
  else Raise (OtherException "ValueError: dict contains fields not in fieldnames").

(** [DictWriter.writerow] *)
Definition DictWriter_writerow (fieldnames : list string) (rowdict : list (string * value))
  : outcome string :=
  try! fields := dict_to_list fieldnames rowdict in
  Return (writerow fields).

(** [DictWriter.writeheader]: the row [dict(zip(fieldnames, fieldnames))]. *)
Definition DictWriter_writeheader (fieldnames : list string) : outcome string :=
  DictWriter_writerow fieldnames (map (fun k => (k, VStr k)) fieldnames).

(** [DictWriter.writerows]: what has been written when a row raises is lost
    with the exception in this model. *)
Fixpoint DictWriter_writerows (fieldnames : list string) (rows : list (list (string * value)))
  : outcome string :=
  match rows with
  | [] => Return ""
  | row :: rows' =>
      try! line := DictWriter_writerow fieldnames row in
      try! lines := DictWriter_writerows fieldnames rows' in
      Return (line +:+ lines)
  end.

(** [os.linesep] on POSIX. *)
Definition os_linesep : string := Json.newline.

(** Writing to a file opened in text mode with the default [newline=None]:
    every ["\n"] becomes [os.linesep]. *)
Fixpoint text_mode (s : string) : string :=
  match s with
  | EmptyString => ""
  | String c s' =>
      if Ascii.eqb c (ascii_of_N 10) then os_linesep +:+ text_mode s'
      else String c (text_mode s')
  end.

End Csv.

(* ===================================================================== *)
(** * main.py: [LinkedinWebScraper] *)
(* ===================================================================== *)

Module Linkedin.

(** The attributes set by [__init__].  [dataset_client] is [None] or the
    client of the dataset whose id is recorded. *)
Record LinkedinWebScraper : Type := {
  page_size : Z;
  actor_call : value;
  dataset_client : option value
}.

Definition is_ApifyApiError (e : exn) : bool :=
  match e with ApifyApiError _ => true | _ => false end.

(** [apify_client.actor(name).call(run_input=...)]: one remote call. *)
Definition call_actor (env : Env) (actor_name run_input : value) : M value :=
  fun t => (actor_call_api env t actor_name run_input,
            t ++ [EvActorCall actor_name run_input]).

(** [dataset_client.list_items(offset=..., limit=...).items]: one remote call. *)
Definition list_items (env : Env) (dataset_id : value) (offset limit : Z) : M (list value) :=
  fun t => (list_items_api env t dataset_id offset limit,
            t ++ [EvListItems dataset_id offset limit]).

(** [LinkedinWebScraper.__init__] *)
Definition __init__ (env : Env) (config_path : string) (page_size : Z) : M LinkedinWebScraper :=
  do! config :=
    catch (Helper.get_actor_config env config_path) (fun _ => true)
      (fun e =>
         match e with
         | FileNotFoundError _ =>
             logging_error ("Configuration file " +:+ config_path +:+ " not found.") ;;;
             ret VNone
         | _ =>
             logging_error ("Error reading configuration file " +:+ config_path +:+
                            ": " +:+ exn_str e) ;;;
             ret VNone
         end) in
  do! actor_call :=
    catch
      (do! actor_name := lift (getitem_str config "actor_name") in
       do! run_input := lift (getitem_str config "actor_input") in
       call_actor env actor_name run_input)
      is_ApifyApiError
      (fun e =>
         print ("Error while running actor: " +:+ exn_str e) ;;;
         (if contains "rate-limit" (lower (exn_str e)) || contains "429" (exn_str e)
          then print "Detected possible rate limit or scraping block."
          else ret tt) ;;;
         ret VNone) in
  if truthy actor_call then
    do! dataset_id := lift (getitem_str actor_call "defaultDatasetId") in
    ret {| page_size := page_size; actor_call := actor_call;
           dataset_client := Some dataset_id |}
  else
    ret {| page_size := page_size; actor_call := actor_call;
           dataset_client := None |}.

(** [get_profiles_page]: the attribute lookup on [self.dataset_client] is
    inside the [try], but only [ApifyApiError] is handled. *)
Definition get_profiles_page (env : Env) (self : LinkedinWebScraper) (offset limit : Z)
  : M (list value) :=
  catch
    (match dataset_client self with
     | None => raise (no_attribute VNone "list_items")
     | Some dataset_id => list_items env dataset_id offset limit
     end)
    is_ApifyApiError
    (fun e => logging_error ("Failed to fetch page: " +:+ exn_str e) ;;; ret []).

(** The [while True] loop of [get_all_profiles]; [None] when [fuel]
    iterations were not enough to leave it. *)
Fixpoint get_all_profiles_loop (fuel : nat) (env : Env) (self : LinkedinWebScraper)
    (all_profiles : list value) (offset : Z) (t : trace)
  : option (outcome (list value) * trace) :=
  match fuel with
  | O => None
  | S fuel' =>
      match get_profiles_page env self offset (page_size self) t with
      | (Raise e, t') => Some (Raise e, t')
      | (Return profiles_page, t') =>
          match profiles_page with
          | [] => Some (Return all_profiles, t')
          | _ =>
              let all_profiles := all_profiles ++ profiles_page in
              let offset := offset + page_size self in
              let t' := t' ++ [EvLog INFO ("Fetched " +:+ pretty (length profiles_page) +:+
                                           " profiles. Total: " +:+
                                           pretty (length all_profiles))] in
              get_all_profiles_loop fuel' env self all_profiles offset t'
          end
      end
  end.

(** [get_all_profiles] *)
Definition get_all_profiles (fuel : nat) (env : Env) (self : LinkedinWebScraper) (t : trace)
  : option (outcome (list value) * trace) :=
  get_all_profiles_loop fuel env self [] 0 t.

(** The [for raw_profile in profiles] loop of [get_formatted_results];
    a dataset item that is not a JSON object has no [.get]. *)
Fixpoint format_profiles (profiles : list value) : outcome (list value) :=
  match profiles with
  | [] => Return []
  | raw_profile :: rest =>
      try! profile :=
        match raw_profile with
        | VDict d => from_api_response d
        | _ => Raise (no_attribute raw_profile "get")
        end in
      try! formatted := format_profiles rest in
      Return (VDict (LinkedInProfile_dict profile) :: formatted)
  end.

(** [get_formatted_results] *)
Definition get_formatted_results (fuel : nat) (env : Env) (self : LinkedinWebScraper)
    (t : trace) : option (outcome string * trace) :=
  match get_all_profiles fuel env self t with
  | None => None
  | Some (Raise e, t') => Some (Raise e, t')
  | Some (Return profiles, t') =>
      Some (try! formatted_profiles := format_profiles profiles in
            Return (Json.dumps (VList formatted_profiles)), t')
  end.

(** The list comprehension of [save_results]: it stops at the first
    dataset item that cannot be normalised. *)
Fixpoint normalise_all (all_profiles : list value) : outcome (list LinkedInProfile) :=
  match all_profiles with
  | [] => Return []
  | p :: rest =>
      try! profile :=
        match p with
        | VDict d => from_api_response d
        | _ => Raise (no_attribute p "get")
        end in
      try! profiles := normalise_all rest in
      Return (profile :: profiles)
  end.

Definition fieldnames : list string :=
  ["name"; "position"; "company"; "location"; "connections"; "education"].

(** The [for profile in profiles: writer.writerow(profile.__dict__)] loop:
    the text the file has taken so far, and how the loop ended.  A record
    is first turned into a line, which is then written. *)
Fixpoint write_rows (disk : Disk) (filename : string) (profiles : list LinkedInProfile)
    (written : string) : string * outcome unit :=
  match profiles with
  | [] => (written, Return tt)
  | profile :: rest =>
      match Csv.DictWriter_writerow fieldnames (LinkedInProfile_dict profile) with
      | Raise e => (written, Raise e)
      | Return line =>
          match disk_write disk filename written line with
          | Raise e => (written, Raise e)
          | Return _ => write_rows disk filename rest (written +:+ line)
          end
      end
  end.

(** The [with open(filename, "w", newline="") as file] statement.  When
    [open] raises, no file is touched.  Otherwise the file exists from then
    on; it is opened with [newline=""], so the text reaches it untranslated,
    and it is closed when the block ends, also when the block raises.  The
    event records the file and the text it has taken; an exception raised
    by [close] replaces the one of the block. *)
Definition write_csv (disk : Disk) (filename : string) (profiles : list LinkedInProfile)
  : M unit :=
  fun t =>
    match disk_open disk t filename with
    | Raise e => (Raise e, t)
    | Return _ =>
        let (written, result) :=
          match Csv.DictWriter_writeheader fieldnames with
          | Raise e => ("", Raise e)
          | Return header =>
              match disk_write disk filename "" header with
              | Raise e => ("", Raise e)
              | Return _ => write_rows disk filename profiles header
              end
          end in
        match disk_close disk filename written with
        | Raise e => (Raise e, t ++ [EvWriteFile filename written])
        | Return _ => (result, t ++ [EvWriteFile filename written])
        end
    end.

(** [LinkedinWebScraper.save_results]: whatever goes wrong inside the [try]
    is logged and raised again. *)
Definition save_results (fuel : nat) (env : Env) (disk : Disk) (self : LinkedinWebScraper)
    (filename : string) (t : trace) : option (outcome unit * trace) :=
  let failed (e : exn) (t' : trace) :=
    Some (@Raise unit e, t' ++ [EvLog ERROR ("Failed to save profiles: " +:+ exn_str e)]) in
  match get_all_profiles fuel env self t with
  | None => None
  | Some (Raise e, t') => failed e t'
  | Some (Return all_profiles, t') =>
      match normalise_all all_profiles with
      | Raise e => failed e t'
      | Return profiles =>
          match write_csv disk filename profiles t' with
          | (Raise e, t'') => failed e t''
          | (Return _, t'') =>
              Some (Return tt,
                    t'' ++ [EvLog INFO ("Successfully saved " +:+ pretty (length profiles) +:+
                                        " profiles to " +:+ filename)])
          end
      end
  end.

End Linkedin.

(* ===================================================================== *)
(** * main.py: [GitHubWebScraper] *)
(* ===================================================================== *)

Module GitHub.

Definition BASE_URL : string := "https://api.github.com/users".

(** The attributes the methods read; [token] and [headers] are fixed at
    construction and only handed to [requests.get]. *)
Record GitHubWebScraper : Type := {
  usernames : list string;
  page_size : Z;
  github_profiles : list GitHubProfile
}.

Definition is_RequestException (e : exn) : bool :=
  match e with RequestException _ => true | _ => false end.

(** [requests.get(url, headers=self.headers)]: one HTTP request. *)
Definition http_get (env : Env) (url : string) : M Response :=
  fun t => (requests_get env t url, t ++ [EvHttpGet url]).

(** [Response.raise_for_status]: [HTTPError] for a 4xx or 5xx status. *)
Definition raise_for_status (r : Response) : outcome unit :=
  if (400 <=? status_code r) && (status_code r <? 500) then
    Raise (RequestException (pretty (status_code r) +:+ " Client Error: " +:+
                             reason r +:+ " for url: " +:+ url r))
  else if (500 <=? status_code r) && (status_code r <? 600) then
    Raise (RequestException (pretty (status_code r) +:+ " Server Error: " +:+
                             reason r +:+ " for url: " +:+ url r))
  else Return tt.

(** The [GitHubProfile(...)] expression of [fetch_profiles]. *)
Definition make_profile (data : value) : outcome GitHubProfile :=
  try! login := getitem_str data "login" in
  try! name := method_get data "name" VNone in
  try! bio := method_get data "bio" VNone in
  try! public_repos := getitem_str data "public_repos" in
  try! followers := getitem_str data "followers" in
  Return {| username := login; full_name := name; bio := bio;
            public_repos := public_repos; followers := followers |}.

(** The [except requests.exceptions.RequestException as e] block.
    [response] is the local variable of [fetch_profiles]: [None] while no
    assignment to it has been executed. *)
Definition on_request_exception (username : string) (response : option Response) (e : exn)
  : M unit :=
  match response with
  | None =>
      raise (UnboundLocalError
               "cannot access local variable 'response' where it is not associated with a value")
  | Some r =>
      if status_code r =? 404 then logging_error ("User " +:+ username +:+ " not found")
      else if status_code r =? 403 then logging_error "API rate limit exceeded"
      else logging_error ("Error: " +:+ exn_str e)
  end.

(** What follows [response = requests.get(...)] inside the [try]. *)
Definition after_get (username : string) (response : Response)
    (github_profiles : list GitHubProfile) : M (list GitHubProfile) :=
  lift (raise_for_status response) ;;;
  do! data := lift (json response) in
  do! profile := lift (make_profile data) in
  logging_info ("Fetched profile for " +:+ username) ;;;
  ret (github_profiles ++ [profile]).

(** The [for username in self.usernames] loop of [fetch_profiles], with
    the local [response] and the list [self.github_profiles] as loop state. *)
Fixpoint fetch_profiles_loop (env : Env) (usernames : list string)
    (response : option Response) (github_profiles : list GitHubProfile)
  : M (list GitHubProfile) :=
  match usernames with
  | [] => ret github_profiles
  | username :: rest =>
      fun t =>
        match http_get env (BASE_URL +:+ "/" +:+ username) t with
        | (Raise e, t1) =>
            if is_RequestException e then
              (on_request_exception username response e ;;;
               fetch_profiles_loop env rest response github_profiles) t1
            else (Raise e, t1)
        | (Return r, t1) =>
            (do! github_profiles :=
               catch (after_get username r github_profiles) is_RequestException
                 (fun e => on_request_exception username (Some r) e ;;;
                           ret github_profiles) in
             fetch_profiles_loop env rest (Some r) github_profiles) t1
        end
  end.

(** [fetch_profiles] *)
Definition fetch_profiles (env : Env) (self : GitHubWebScraper) : M GitHubWebScraper :=
  do! profiles := fetch_profiles_loop env (usernames self) None (github_profiles self) in
  ret {| usernames := usernames self; page_size := page_size self;
         github_profiles := profiles |}.

(** [GitHubWebScraper.__init__] *)
Definition __init__ (env : Env) (usernames : list string) (page_size : Z) : M GitHubWebScraper :=
  logging_info ("Initializing GitHub scraper for " +:+ pretty (length usernames) +:+ " users") ;;;
  fetch_profiles env {| usernames := usernames; page_size := page_size;
                        github_profiles := [] |}.

Definition fieldnames : list string :=
  ["Username"; "Fullname"; "Bio"; "Number of public repositories"; "Number of followers"].

(** The row dictionary built for one profile in [save_results]. *)
Definition row_of (profile : GitHubProfile) : list (string * value) :=
  [("Username", username profile);
   ("Fullname", full_name profile);
   ("Bio", bio profile);
   ("Number of public repositories", public_repos profile);
   ("Number of followers", followers profile)].

(** What [save_results] hands to the file object. *)
Definition csv_text (self : GitHubWebScraper) : outcome string :=
  try! header := Csv.DictWriter_writeheader fieldnames in
  let rows := map row_of (github_profiles self) in
  try! body := Csv.DictWriter_writerows fieldnames rows in
  Return (header +:+ body).

(** [GitHubWebScraper.save_results] *)
Definition save_results (self : GitHubWebScraper) (filename : string) : M unit :=
  do! text := lift (csv_text self) in
  emit (EvWriteFile filename (Csv.text_mode text)).

(** [GitHubWebScraper.get_formatted_results] *)
Definition get_formatted_results (self : GitHubWebScraper) : string :=
  Json.dumps
    (VList (map (fun profile =>
                   VDict [("username", username profile);
                          ("full_name", full_name profile);
                          ("bio", bio profile);
                          ("public_repos", public_repos profile);
                          ("followers", followers profile)])
                (github_profiles self))).

End GitHub.

(* ===================================================================== *)
(** * main.py: the script *)
(* ===================================================================== *)

Module Main.

(** The statements at the end of [main.py], run when the module is
    loaded: the LinkedIn pipeline, then the GitHub pipeline, each with the
    default arguments of its class.  [None] when the fuel given to the
    pagination loops was not enough.  The GitHub file is written as
    [GitHub.save_results] has it. *)
Definition script (fuel : nat) (env : Env) (disk : Disk) (t : trace)
  : option (outcome unit * trace) :=
  match Linkedin.__init__ env "linkedin_config.json" 100 t with
  | (Raise e, t1) => Some (Raise e, t1)
  | (Return linkedin_scraper, t1) =>
      match Linkedin.save_results fuel env disk linkedin_scraper
              "linkedin_profiles.csv" t1 with
      | None => None
      | Some (Raise e, t2) => Some (Raise e, t2)
      | Some (Return _, t2) =>
          match Linkedin.get_formatted_results fuel env linkedin_scraper
                  (t2 ++ [EvPrint "Linkedin Output:"]) with
          | None => None
          | Some (Raise e, t3) => Some (Raise e, t3)
          | Some (Return text, t3) =>
              Some ((do! github_scraper :=
                       GitHub.__init__ env
                         ["wincent"; "jericho1050"; "brianyu2"; "dmalan"; "torvalds"] 30 in
                     GitHub.save_results github_scraper "github_profile.csv" ;;;
                     print "Github Output:" ;;;
                     print (GitHub.get_formatted_results github_scraper))
                      (t3 ++ [EvPrint text]))
          end
      end
  end.

End Main.

(* ===================================================================== *)
(** * Vocabulary of the statements *)
(* ===================================================================== *)

Import Linkedin.

(** The guard [k in profile and profile[k]] of the three getters. *)
Definition has_entries (k : string) (profile : raw_record) : bool :=
  dict_mem k profile && truthy (dict_get profile k VNone).

(** A record is fully populated when none of its six fields is [None]. *)
Definition non_null (r : LinkedInProfile) : Prop :=
  name r <> VNone /\ position r <> VNone /\ company r <> VNone /\
  location r <> VNone /\ connections r <> VNone /\ education r <> VNone.

(** The key is absent, or present with something other than [None]. *)
Definition absent_or_non_null (k : string) (d : list (string * value)) : Prop :=
  dict_lookup k d <> Some VNone.

(** What the getters can digest under [k]: nothing, a falsy value, or a
    list that starts with a dict whose [inner] keys are not null. *)
Definition entries_ok (k : string) (inner : list string) (profile : raw_record) : Prop :=
  match dict_lookup k profile with
  | None => True
  | Some v =>
      truthy v = false \/
      exists first rest, v = VList (VDict first :: rest) /\
                         Forall (fun i => absent_or_non_null i first) inner
  end.

(** What the claim of totality says, word for word: every raw record gives
    a record, and none of its fields is null. *)
Definition from_api_response_total_claim : Prop :=
  forall profile : raw_record,
    exists r, from_api_response profile = Return r /\ non_null r.

(** What the claim about [connections] says: a non-negative integer,
    whatever the raw record. *)
Definition connections_non_negative_claim : Prop :=
  forall (profile : raw_record) (r : LinkedInProfile),
    from_api_response profile = Return r ->
    exists n : Z, 0 <= n /\ connections r = VInt n.

(** The ranged read of a dataset that holds [items] and answers every
    request: the page [items[offset : offset + limit]]. *)
Definition serves (env : Env) (dataset_id : value) (items : list value) : Prop :=
  forall t offset limit,
    list_items_api env t dataset_id offset limit =
    Return (take (Z.to_nat limit) (drop (Z.to_nat offset) items)).

(** The page reads recorded in a trace, as [(offset, limit)] pairs. *)
Fixpoint page_requests (t : trace) : list (Z * Z) :=
  match t with
  | [] => []
  | EvListItems _ offset limit :: t' => (offset, limit) :: page_requests t'
  | _ :: t' => page_requests t'
  end.

(** The number of page reads needed for [n] items left: one per page,
    full or not, and one more that comes back empty. *)
Definition reads_needed (n : nat) (page_size : Z) : Z :=
  (Z.of_nat n + page_size - 1) / page_size + 1.

(** The log line chosen by the [except] block for a response [r]. *)
Definition failure_log (login : string) (r : Response) (e : exn) : event :=
  if status_code r =? 404 then EvLog ERROR ("User " +:+ login +:+ " not found")
  else if status_code r =? 403 then EvLog ERROR "API rate limit exceeded"
  else EvLog ERROR ("Error: " +:+ exn_str e).



(** What a getter can read under [k] without raising: nothing, a falsy
    value, or a list whose first element is a JSON object. *)
Definition digestible (k : string) (profile : raw_record) : Prop :=
  match dict_lookup k profile with
  | None => True
  | Some v => truthy v = false \/ exists first rest, v = VList (VDict first :: rest)
  end.

Definition starts_with_space (s : string) : bool :=
  match s with
  | EmptyString => false
  | String c _ => is_space c
  end.

Fixpoint ends_with_space (s : string) : bool :=
  match s with
  | EmptyString => false
  | String c EmptyString => is_space c
  | String _ s' => ends_with_space s'
  end.

(** A dataset item and the JSON object [get_formatted_results] lists for it. *)
Definition formats_to (raw formatted : value) : Prop :=
  exists d r, raw = VDict d /\ from_api_response d = Return r /\
              formatted = VDict (LinkedInProfile_dict r).



(** The remote job launches and the HTTP requests recorded in a trace. *)
Fixpoint actor_calls (t : trace) : list (value * value) :=
  match t with
  | [] => []
  | EvActorCall actor_name run_input :: t' => (actor_name, run_input) :: actor_calls t'
  | _ :: t' => actor_calls t'
  end.

Fixpoint http_requests (t : trace) : list string :=
  match t with
  | [] => []
  | EvHttpGet url :: t' => url :: http_requests t'
  | _ :: t' => http_requests t'
  end.

(** The files written in a trace. *)
Fixpoint files_written (t : trace) : list string :=
  match t with
  | [] => []
  | EvWriteFile path _ :: t' => path :: files_written t'
  | _ :: t' => files_written t'
  end.

(** The address [fetch_profiles] asks for one identifier. *)
Definition url_of (login : string) : string := GitHub.BASE_URL +:+ "/" +:+ login.

(** What one answer adds to [github_profiles]. *)
Definition lookup_profile (r : Response) : option GitHubProfile :=
  match GitHub.raise_for_status r, json r with
  | Return _, Return data =>
      match GitHub.make_profile data with
      | Return p => Some p
      | Raise _ => None
      end
  | _, _ => None
  end.

(** An answer the fetcher copes with: an error status, a body that
    [requests] cannot decode, or a JSON value it can build a profile from. *)
Definition answer_ok (r : Response) : Prop :=
  400 <= status_code r < 600 \/
  (exists msg, json r = Raise (RequestException msg)) \/
  (exists data p, json r = Return data /\ GitHub.make_profile data = Return p).

(** The keys a GitHub answer must have. *)
Definition required_keys : list string := ["login"; "public_repos"; "followers"].

(** What the claim about failed page reads says: whatever exception a
    page read raises, the loop stops there, logs it, and returns what it
    has collected. *)
Definition failed_read_is_empty_page_claim : Prop :=
  forall (env : Env) (self : LinkedinWebScraper) (ds : value) (fuel : nat)
         (all_profiles : list value) (offset : Z) (t : trace) (e : exn),
    dataset_client self = Some ds ->
    list_items_api env t ds offset (Linkedin.page_size self) = Raise e ->
    get_all_profiles_loop (S fuel) env self all_profiles offset t =
    Some (Return all_profiles,
          t ++ [EvListItems ds offset (Linkedin.page_size self);
                EvLog ERROR ("Failed to fetch page: " +:+ exn_str e)]).

(** What the claim about empty entries says: with ["positions"] (or
    ["educations"]) present but [None] or empty, the normaliser does not
    raise. *)
Definition empty_entries_never_raise_claim : Prop :=
  forall (k : string) (v : value) (profile : raw_record),
    k = "positions" \/ k = "educations" ->
    dict_lookup k profile = Some v ->
    v = VNone \/ v = VList [] ->
    exists r, from_api_response profile = Return r.

(** The events of one loop iteration that read a non-empty [page]. *)
Definition page_events (ds : value) (size : Z) (all_profiles page : list value)
    (offset : Z) : trace :=
  [EvListItems ds offset size;
   EvLog INFO ("Fetched " +:+ pretty (length page) +:+ " profiles. Total: " +:+
               pretty (length (all_profiles ++ page)))].

(** The trace after the loop, started with [all_profiles] at [offset], has
    read [pages] one after the other. *)
Fixpoint pages_trace (ds : value) (size : Z) (pages : list (list value))
    (all_profiles : list value) (offset : Z) (t : trace) : trace :=
  match pages with
  | [] => t
  | page :: rest =>
      pages_trace ds size rest (all_profiles ++ page) (offset + size)
        (t ++ page_events ds size all_profiles page offset)
  end.

(** The dataset answers the successive reads of the loop with [pages],
    none of them empty. *)
Fixpoint pages_read (env : Env) (ds : value) (size : Z) (pages : list (list value))
    (all_profiles : list value) (offset : Z) (t : trace) : Prop :=
  match pages with
  | [] => True
  | page :: rest =>
      page <> [] /\
      list_items_api env t ds offset size = Return page /\
      pages_read env ds size rest (all_profiles ++ page) (offset + size)
        (t ++ page_events ds size all_profiles page offset)
  end.


(* ===================================================================== *)
(** * Concrete worlds *)
(* ===================================================================== *)

Module Scenarios.

Definition config_file : value :=
  VDict [("actor_name", VStr "curious_coder/linkedin-profile-scraper");
         ("actor_input", VDict [("urls", VList [])])].

Definition cookie_file : value := VDict [("cookie", VStr "li_at=secret")].

(** Both configuration files are in place. *)
Definition files_present (path : string) : outcome value :=
  if String.eqb path "input.JSON" then Return cookie_file else Return config_file.

(** No file can be opened. *)
Definition files_missing (path : string) : outcome value :=
  Raise (FileNotFoundError ("[Errno 2] No such file or directory: " +:+ repr_str path)).

Definition no_network (t : trace) (url : string) : outcome Response :=
  Raise (RequestException "Connection refused").

Definition ada : value :=
  VDict [("firstName", VStr "Ada"); ("lastName", VStr "Lovelace")].
Definition alan : value :=
  VDict [("firstName", VStr "Alan"); ("lastName", VStr "Turing")].
Definition grace : value :=
  VDict [("firstName", VStr "Grace"); ("lastName", VStr "Hopper")].

(** The actor runs and its dataset holds [items]. *)
Definition env_dataset (items : list value) : Env :=
  {| load_json := files_present;
     actor_call_api := fun _ _ _ => Return (VDict [("defaultDatasetId", VStr "ds-1")]);
     list_items_api := fun _ _ offset limit =>
       Return (take (Z.to_nat limit) (drop (Z.to_nat offset) items));
     requests_get := no_network |}.

(** The same dataset, but the read number [n] (counting from 0) fails. *)
Definition env_flaky (items : list value) (n : nat) : Env :=
  {| load_json := files_present;
     actor_call_api := fun _ _ _ => Return (VDict [("defaultDatasetId", VStr "ds-1")]);
     list_items_api := fun t _ offset limit =>
       if Nat.eqb (length (page_requests t)) n
       then Raise (ApifyApiError "Internal Server Error")
       else Return (take (Z.to_nat limit) (drop (Z.to_nat offset) items));
     requests_get := no_network |}.

(** The platform refuses to run the actor; the dataset of an earlier run
    would still answer if it were asked. *)
Definition env_rate_limited : Env :=
  {| load_json := files_present;
     actor_call_api := fun _ _ _ => Raise (ApifyApiError "Too Many Requests (status 429)");
     list_items_api := fun _ _ offset limit =>
       Return (take (Z.to_nat limit) (drop (Z.to_nat offset) [ada; alan]));
     requests_get := no_network |}.

(** The configuration file is missing. *)
Definition env_no_config : Env :=
  {| load_json := files_missing;
     actor_call_api := fun _ _ _ => Return (VDict [("defaultDatasetId", VStr "ds-1")]);
     list_items_api := fun _ _ offset limit =>
       Return (take (Z.to_nat limit) (drop (Z.to_nat offset) [ada; alan]));
     requests_get := no_network |}.

Definition scraper_on (ds : value) (page_size : Z) : LinkedinWebScraper :=
  {| Linkedin.page_size := page_size;
     actor_call := VDict [("defaultDatasetId", ds)];
     dataset_client := Some ds |}.

(** The GitHub API as a table from user name to answer; an unknown user
    gets a 404. *)
Definition github_user (login : string) (name bio : value) (repos followers : Z) : Response :=
  {| status_code := 200; reason := "OK";
     url := GitHub.BASE_URL +:+ "/" +:+ login;
     json := Return (VDict [("login", VStr login); ("name", name); ("bio", bio);
                            ("public_repos", VInt repos); ("followers", VInt followers)]) |}.

(** A user who filled in neither name nor bio, in an answer that leaves
    both keys out. *)
Definition github_user_sparse (login : string) (repos followers : Z) : Response :=
  {| status_code := 200; reason := "OK";
     url := GitHub.BASE_URL +:+ "/" +:+ login;
     json := Return (VDict [("login", VStr login);
                            ("public_repos", VInt repos); ("followers", VInt followers)]) |}.

Definition not_found (url : string) : Response :=
  {| status_code := 404; reason := "Not Found"; url := url;
     json := Return (VDict [("message", VStr "Not Found")]) |}.

Fixpoint find_user (users : list (string * Response)) (url : string) : Response :=
  match users with
  | [] => not_found url
  | (login, r) :: users' =>
      if String.eqb url (GitHub.BASE_URL +:+ "/" +:+ login) then r else find_user users' url
  end.

Definition env_github (users : list (string * Response)) : Env :=
  {| load_json := files_present;
     actor_call_api := fun _ _ _ => Raise (ApifyApiError "unused");
     list_items_api := fun _ _ _ _ => Return [];
     requests_get := fun _ url => Return (find_user users url) |}.

(** The network is down: every request raises [ConnectionError]. *)
Definition env_offline : Env :=
  {| load_json := files_present;
     actor_call_api := fun _ _ _ => Raise (ApifyApiError "unused");
     list_items_api := fun _ _ _ _ => Return [];
     requests_get := no_network |}.

Definition four_users : list (string * Response) :=
  [("wincent", github_user "wincent" (VStr "Greg Hurrell") VNone 100 1000);
   ("jericho1050", github_user_sparse "jericho1050" 20 3);
   ("dmalan", github_user "dmalan" (VStr "David J. Malan") (VStr "CS50") 30 9000);
   ("torvalds", github_user "torvalds" (VStr "Linus Torvalds") VNone 8 200000)].


(** The first request is answered (the user does not exist); after that
    the connection is gone. *)
Definition env_drops_after_first : Env :=
  {| load_json := files_present;
     actor_call_api := fun _ _ _ => Raise (ApifyApiError "unused");
     list_items_api := fun _ _ _ _ => Return [];
     requests_get := fun t url =>
       match http_requests t with
       | [] => Return (not_found url)
       | _ => Raise (RequestException "Connection refused")
       end |}.

(** A dataset item that is not a JSON object. *)
Definition env_bad_item : Env := env_dataset [ada; VStr "oops"].

(** The same dataset, but the read number [n] times out below the Apify
    client, which is not an [ApifyApiError]. *)
Definition env_timeout (items : list value) (n : nat) : Env :=
  {| load_json := files_present;
     actor_call_api := fun _ _ _ => Return (VDict [("defaultDatasetId", VStr "ds-1")]);
     list_items_api := fun t _ offset limit =>
       if Nat.eqb (length (page_requests t)) n
       then Raise (OtherException "ReadTimeout")
       else Return (take (Z.to_nat limit) (drop (Z.to_nat offset) items));
     requests_get := no_network |}.

(** Everything answers: the dataset holds two profiles and GitHub knows
    four of the five users. *)
Definition env_online : Env :=
  {| load_json := files_present;
     actor_call_api := fun _ _ _ => Return (VDict [("defaultDatasetId", VStr "ds-1")]);
     list_items_api := fun _ _ offset limit =>
       Return (take (Z.to_nat limit) (drop (Z.to_nat offset) [ada; alan]));
     requests_get := fun _ url => Return (find_user four_users url) |}.

(** A file system on which everything works. *)
Definition disk_ok : Disk :=
  {| disk_open := fun _ _ => Return tt;
     disk_write := fun _ _ _ => Return tt;
     disk_close := fun _ _ => Return tt |}.

(** The directory of the output file does not exist. *)
Definition disk_no_directory : Disk :=
  {| disk_open := fun _ path =>
       Raise (FileNotFoundError ("[Errno 2] No such file or directory: " +:+ repr_str path));
     disk_write := fun _ _ _ => Return tt;
     disk_close := fun _ _ => Return tt |}.

(** The file can be created and takes the header, but no data line. *)
Definition disk_full : Disk :=
  {| disk_open := fun _ _ => Return tt;
     disk_write := fun _ written _ =>
       match written with
       | EmptyString => Return tt
       | _ => Raise (OtherException "[Errno 28] No space left on device")
       end;
     disk_close := fun _ _ => Return tt |}.

End Scenarios.

Import Scenarios.

(* ===================================================================== *)
(** * Properties of the LinkedIn normaliser *)
(* ===================================================================== *)

Section DictFacts.

Lemma dict_lookup_delete_eq (k : string) (d : list (string * value)) :
  dict_lookup k (dict_delete k d) = None.
Proof.
  induction d as [|[k' v] d IH]; simpl; [reflexivity|].
  destruct (String.eqb k k') eqn:E; simpl; [assumption|].
  rewrite E. assumption.
Qed.

Lemma dict_lookup_delete_ne (k j : string) (d : list (string * value)) :
  k <> j -> dict_lookup j (dict_delete k d) = dict_lookup j d.
Proof.
  intros Hne. induction d as [|[k' v] d IH]; simpl; [reflexivity|].
  destruct (String.eqb k k') eqn:E.
  - apply String.eqb_eq in E. subst k'.
    destruct (String.eqb j k) eqn:E'; [|assumption].
    apply String.eqb_eq in E'. congruence.
  - simpl. rewrite IH. reflexivity.
Qed.

Lemma dict_get_delete_ne (k j : string) (d : list (string * value)) (dflt : value) :
  k <> j -> dict_get (dict_delete k d) j dflt = dict_get d j dflt.
Proof. intros Hne. unfold dict_get. rewrite dict_lookup_delete_ne; auto. Qed.

Lemma dict_mem_delete_ne (k j : string) (d : list (string * value)) :
  k <> j -> dict_mem j (dict_delete k d) = dict_mem j d.
Proof. intros Hne. unfold dict_mem. rewrite dict_lookup_delete_ne; auto. Qed.

End DictFacts.

Lemma has_entries_lookup (k : string) (profile : raw_record) :
  has_entries k profile =
  match dict_lookup k profile with Some v => truthy v | None => false end.
Proof.
  unfold has_entries, dict_mem, dict_get.
  destruct (dict_lookup k profile); reflexivity.
Qed.

Lemma has_entries_delete_ne (k j : string) (profile : raw_record) :
  k <> j -> has_entries j (dict_delete k profile) = has_entries j profile.
Proof. intros Hne. rewrite !has_entries_lookup, dict_lookup_delete_ne; auto. Qed.

Lemma dict_get_non_null (k : string) (d : list (string * value)) (dflt : value) :
  absent_or_non_null k d -> dflt <> VNone -> dict_get d k dflt <> VNone.
Proof.
  unfold absent_or_non_null, dict_get.
  destruct (dict_lookup k d); intros H1 H2; congruence.
Qed.

Lemma dict_get_absent (k : string) (d : list (string * value)) (dflt : value) :
  dict_lookup k d = None -> dict_get d k dflt = dflt.
Proof. unfold dict_get. intros ->. reflexivity. Qed.

(** The first-entry getters, all three at once: the entry list under [k],
    the field [f] of its first element, and the fallback [other]. *)
Lemma getter_shape (k f : string) (other : value) (profile : raw_record) :
  (if has_entries k profile then
     try! entries := getitem_str (VDict profile) k in
     try! first := getitem_0 entries in
     method_get first f (VStr "")
   else Return other) =
  match dict_lookup k profile with
  | Some v =>
      if truthy v then try! first := getitem_0 v in method_get first f (VStr "")
      else Return other
  | None => Return other
  end.
Proof.
  rewrite has_entries_lookup. simpl.
  destruct (dict_lookup k profile) as [v|]; [|reflexivity].
  destruct (truthy v); reflexivity.
Qed.

Lemma _get_position_shape (profile : raw_record) :
  _get_position profile =
  match dict_lookup "positions" profile with
  | Some v =>
      if truthy v then try! first := getitem_0 v in method_get first "title" (VStr "")
      else Return (dict_get profile "occupation" (VStr ""))
  | None => Return (dict_get profile "occupation" (VStr ""))
  end.
Proof. apply getter_shape. Qed.

Lemma _get_company_shape (profile : raw_record) :
  _get_company profile =
  match dict_lookup "positions" profile with
  | Some v =>
      if truthy v then try! first := getitem_0 v in method_get first "companyName" (VStr "")
      else Return (VStr "")
  | None => Return (VStr "")
  end.
Proof. apply getter_shape. Qed.

Lemma _get_education_shape (profile : raw_record) :
  _get_education profile =
  match dict_lookup "educations" profile with
  | Some v =>
      if truthy v then try! first := getitem_0 v in method_get first "schoolName" (VStr "")
      else Return (VStr "")
  | None => Return (VStr "")
  end.
Proof. apply getter_shape. Qed.

(** C3, as stated, fails: a raw record whose [geoLocationName] is JSON
    [null] is normalised to a record whose [location] is [None]. *)
Lemma from_api_response_null_location :
  from_api_response [("firstName", VStr "Ada"); ("geoLocationName", VNone)] =
    Return {| name := VStr "Ada"; position := VStr ""; company := VStr "";
              location := VNone; connections := VInt 0; education := VStr "" |} /\
  ~ from_api_response_total_claim.
Proof.
  split; [reflexivity|].
  intros H.
  destruct (H [("firstName", VStr "Ada"); ("geoLocationName", VNone)])
    as (r & Hr & _ & _ & _ & Hloc & _).
  vm_compute in Hr. injection Hr as <-. apply Hloc. reflexivity.
Qed.

(** A raw record can also make the normaliser raise: a first position that
    is not a JSON object has no [.get]. *)
Lemma from_api_response_raises :
  from_api_response [("positions", VList [VStr "Engineer"])] =
    Raise (AttributeError "'str' object has no attribute 'get'").
Proof. reflexivity. Qed.

(** The three getters share one shape; on entries that are well formed
    they return something that is not null, and the fallback [other] when
    the key is absent. *)
Lemma getter_returns_non_null (k f : string) (inner : list string) (other : value)
    (profile : raw_record) :
  entries_ok k inner profile -> f ∈ inner -> other <> VNone ->
  exists x,
    match dict_lookup k profile with
    | Some v =>
        if truthy v then try! first := getitem_0 v in method_get first f (VStr "")
        else Return other
    | None => Return other
    end = Return x /\
    x <> VNone /\
    (dict_lookup k profile = None -> x = other).
Proof.
  unfold entries_ok. intros Hok Hin Hother.
  destruct (dict_lookup k profile) as [v|].
  - destruct Hok as [Hfalsy | (first & rest & -> & Hall)].
    + rewrite Hfalsy. exists other. repeat split; auto; discriminate.
    + simpl. eexists. split; [reflexivity|]. split; [|discriminate].
      apply dict_get_non_null; [|discriminate].
      rewrite Forall_forall in Hall. apply Hall. exact Hin.
  - exists other. auto.
Qed.

(** On entries that are well formed a getter returns the field of the
    first entry when there is one, and the fallback otherwise. *)
Lemma getter_value (k f : string) (inner : list string) (other : value)
    (profile : raw_record) :
  entries_ok k inner profile ->
  match dict_lookup k profile with
  | Some v =>
      if truthy v then try! first := getitem_0 v in method_get first f (VStr "")
      else Return other
  | None => Return other
  end =
  Return match dict_lookup k profile with
         | Some (VList (VDict first :: _)) => dict_get first f (VStr "")
         | _ => other
         end.
Proof.
  unfold entries_ok.
  destruct (dict_lookup k profile) as [v|]; [|reflexivity].
  intros [Hfalsy | (first & rest & -> & _)]; [|reflexivity].
  rewrite Hfalsy.
  destruct v as [| | | | |l|]; try reflexivity.
  destruct l as [|x l]; [reflexivity|discriminate Hfalsy].
Qed.

(** C3 (amended): [from_api_response] returns a record with six non-null
    fields for every raw record in which [positions] and [educations] are
    absent, falsy, or lists starting with a JSON object, and in which no
    consulted key maps to null.  Every field is then fixed by the raw
    record: [name] is the stripped text of first and last name; [location]
    and [connections] are the values of [geoLocationName] and
    [connectionsCount], unchanged; with a first position, [position] and
    [company] are its [title] and [companyName], unchanged, and without one
    [position] is the top-level [occupation], unchanged, and [company] is
    [""]; [education] is the [schoolName] of the first education,
    unchanged.  A key that is absent gives its default: [""] for the
    string fields, [0] for [connections]. *)
Theorem from_api_response_populated (profile : raw_record) :
  entries_ok "positions" ["title"; "companyName"] profile ->
  entries_ok "educations" ["schoolName"] profile ->
  absent_or_non_null "occupation" profile ->
  absent_or_non_null "geoLocationName" profile ->
  absent_or_non_null "connectionsCount" profile ->
  exists r,
    from_api_response profile = Return r /\
    non_null r /\
    (exists s, name r = VStr s) /\
    (dict_lookup "positions" profile = None ->
     dict_lookup "occupation" profile = None -> position r = VStr "") /\
    (dict_lookup "positions" profile = None -> company r = VStr "") /\
    (dict_lookup "geoLocationName" profile = None -> location r = VStr "") /\
    (dict_lookup "connectionsCount" profile = None -> connections r = VInt 0) /\
    (dict_lookup "educations" profile = None -> education r = VStr "") /\
    name r = VStr (strip (str (dict_get profile "firstName" (VStr "")) +:+ " " +:+
                          str (dict_get profile "lastName" (VStr "")))) /\
    location r = dict_get profile "geoLocationName" (VStr "") /\
    connections r = dict_get profile "connectionsCount" (VInt 0) /\
    (forall first rest,
       dict_lookup "positions" profile = Some (VList (VDict first :: rest)) ->
       position r = dict_get first "title" (VStr "") /\
       company r = dict_get first "companyName" (VStr "")) /\
    ((forall first rest,
        dict_lookup "positions" profile <> Some (VList (VDict first :: rest))) ->
     position r = dict_get profile "occupation" (VStr "") /\ company r = VStr "") /\
    (forall first rest,
       dict_lookup "educations" profile = Some (VList (VDict first :: rest)) ->
       education r = dict_get first "schoolName" (VStr "")) /\
    ((forall first rest,
        dict_lookup "educations" profile <> Some (VList (VDict first :: rest))) ->
     education r = VStr "").
Proof.
  intros Hpos Hedu Hocc Hloc Hcon.
  destruct (getter_returns_non_null "positions" "title" _
              (dict_get profile "occupation" (VStr "")) profile Hpos)
    as (p & Hp & Hpn & Hpd).
  { repeat constructor. }
  { apply dict_get_non_null; [assumption|discriminate]. }
  destruct (getter_returns_non_null "positions" "companyName" _ (VStr "") profile Hpos)
    as (c & Hc & Hcn & Hcd); [repeat constructor|discriminate|].
  destruct (getter_returns_non_null "educations" "schoolName" _ (VStr "") profile Hedu)
    as (e & He & Hen & Hed); [repeat constructor|discriminate|].
  pose proof (getter_value "positions" "title" _
                (dict_get profile "occupation" (VStr "")) profile Hpos) as Vp.
  pose proof (getter_value "positions" "companyName" _ (VStr "") profile Hpos) as Vc.
  pose proof (getter_value "educations" "schoolName" _ (VStr "") profile Hedu) as Ve.
  rewrite Hp in Vp. rewrite Hc in Vc. rewrite He in Ve.
  injection Vp as Vp. injection Vc as Vc. injection Ve as Ve.
  rewrite <- _get_position_shape in Hp.
  rewrite <- _get_company_shape in Hc.
  rewrite <- _get_education_shape in He.
  unfold from_api_response. rewrite Hp, Hc, He. cbn [obind].
  eexists. split; [reflexivity|]. cbn [name position company location connections education].
  split.
  { repeat split; try assumption; try discriminate;
      (apply dict_get_non_null; [assumption|discriminate]). }
  split; [eexists; reflexivity|].
  split; [intros H1 H2; rewrite (Hpd H1); apply dict_get_absent; exact H2|].
  split; [assumption|].
  split; [intros H; apply dict_get_absent; exact H|].
  split; [intros H; apply dict_get_absent; exact H|].
  split; [assumption|].
  split; [reflexivity|]. split; [reflexivity|]. split; [reflexivity|].
  split; [|split; [|split]].
  - intros first rest H. rewrite H in Vp, Vc. auto.
  - intros H. rewrite Vp, Vc.
    destruct (dict_lookup "positions" profile) as [v|]; [|auto].
    destruct v as [| | | | |l|]; auto.
    destruct l as [|x l]; auto.
    destruct x; auto. exfalso. eapply H. reflexivity.
  - intros first rest H. rewrite H in Ve. exact Ve.
  - intros H. rewrite Ve.
    destruct (dict_lookup "educations" profile) as [v|]; [|auto].
    destruct v as [| | | | |l|]; auto.
    destruct l as [|x l]; auto.
    destruct x; auto. exfalso. eapply H. reflexivity.
Qed.

(** The sparse record of the specification: only a first name. *)
Lemma from_api_response_populated_sparse :
  exists r,
    from_api_response [("firstName", VStr "Ada")] = Return r /\
    non_null r /\
    name r = VStr "Ada" /\
    position r = VStr "" /\ company r = VStr "" /\ location r = VStr "" /\
    connections r = VInt 0 /\ education r = VStr "".
Proof.
  destruct (from_api_response_populated [("firstName", VStr "Ada")])
    as (r & Hr & Hnn & _ & Hp & Hc & Hl & Hn & He & Hname & _).
  - exact I.
  - exact I.
  - discriminate.
  - discriminate.
  - discriminate.
  - exists r. repeat split; try assumption; try apply Hnn; auto.
Defined.

(** A record with a first position and a first education: their fields
    are taken as they are, and the top-level [occupation] is not used. *)
Lemma from_api_response_first_entries :
  from_api_response
    [("firstName", VStr "Grace"); ("lastName", VStr "Hopper");
     ("occupation", VStr "Officer"); ("geoLocationName", VStr "Arlington");
     ("connectionsCount", VInt 500);
     ("positions", VList [VDict [("title", VStr "Rear Admiral");
                                 ("companyName", VStr "US Navy")];
                          VDict [("title", VStr "Programmer")]]);
     ("educations", VList [VDict [("schoolName", VStr "Yale")]])] =
  Return {| name := VStr "Grace Hopper"; position := VStr "Rear Admiral";
            company := VStr "US Navy"; location := VStr "Arlington";
            connections := VInt 500; education := VStr "Yale" |}.
Proof. reflexivity. Qed.

(** C7, as stated, fails: a raw record whose [connectionsCount] is JSON
    [null] is normalised to a record whose [connections] is [None]. *)
Lemma connections_null_passes_through :
  from_api_response [("firstName", VStr "Ada"); ("connectionsCount", VNone)] =
    Return {| name := VStr "Ada"; position := VStr ""; company := VStr "";
              location := VStr ""; connections := VNone; education := VStr "" |} /\
  ~ connections_non_negative_claim.
Proof.
  split; [reflexivity|].
  intros H.
  destruct (H [("firstName", VStr "Ada"); ("connectionsCount", VNone)] _ eq_refl)
    as (n & _ & Hn).
  discriminate Hn.
Qed.

(** The same happens with a negative count or with text such as ["500+"]. *)
Lemma connections_negative_passes_through :
  from_api_response [("connectionsCount", VInt (-1))] =
    Return {| name := VStr ""; position := VStr ""; company := VStr "";
              location := VStr ""; connections := VInt (-1); education := VStr "" |}.
Proof. reflexivity. Qed.

Lemma from_api_response_connections (profile : raw_record) (r : LinkedInProfile) :
  from_api_response profile = Return r ->
  connections r = dict_get profile "connectionsCount" (VInt 0).
Proof.
  unfold from_api_response.
  destruct (_get_position profile); simpl; [|discriminate].
  destruct (_get_company profile); simpl; [|discriminate].
  destruct (_get_education profile); simpl; [|discriminate].
  intros [= <-]. reflexivity.
Qed.

(** C7 (amended): the [connections] field of the normalised record is the
    raw [connectionsCount] value, unchanged, when the key is present, and
    [0] when it is absent.  It is therefore a non-negative integer exactly
    when the key is absent or maps to a non-negative integer. *)
Theorem connections_is_raw_count_or_zero (profile : raw_record) (r : LinkedInProfile) :
  from_api_response profile = Return r ->
  connections r = dict_get profile "connectionsCount" (VInt 0) /\
  ((exists n : Z, 0 <= n /\ connections r = VInt n) <->
   (dict_lookup "connectionsCount" profile = None \/
    exists n : Z, 0 <= n /\ dict_lookup "connectionsCount" profile = Some (VInt n))).
Proof.
  intros Hr. apply from_api_response_connections in Hr.
  split; [exact Hr|]. rewrite Hr. unfold dict_get.
  destruct (dict_lookup "connectionsCount" profile) as [v|].
  - split.
    + intros (n & Hn & ->). right. exists n. auto.
    + intros [H | (n & Hn & [= ->])]; [discriminate|]. exists n. auto.
  - split.
    + intros _. left. reflexivity.
    + intros _. exists 0. split; [lia|reflexivity].
Qed.

Lemma connections_is_raw_count_or_zero_example :
  exists r,
    from_api_response [("firstName", VStr "Ada"); ("connectionsCount", VInt 500)] = Return r /\
    connections r = VInt 500.
Proof.
  eexists. split; [reflexivity|].
  apply (connections_is_raw_count_or_zero
           [("firstName", VStr "Ada"); ("connectionsCount", VInt 500)]).
  reflexivity.
Defined.

(** ** Entries that are present but empty *)

Lemma from_api_response_depends (p q : raw_record) :
  _get_position p = _get_position q ->
  _get_company p = _get_company q ->
  _get_education p = _get_education q ->
  (forall k dflt, k <> "positions" -> k <> "educations" ->
                  dict_get p k dflt = dict_get q k dflt) ->
  from_api_response p = from_api_response q.
Proof.
  intros Hp Hc He Hg. unfold from_api_response.
  rewrite Hp, Hc, He.
  rewrite (Hg "firstName"), (Hg "lastName"), (Hg "geoLocationName"),
    (Hg "connectionsCount") by discriminate.
  reflexivity.
Qed.

(** C10, as stated, fails: with ["positions"] empty the normaliser still
    raises when the first education is not a JSON object. *)
Lemma empty_positions_malformed_educations_raises :
  from_api_response [("positions", VList []); ("educations", VList [VStr "MIT"])] =
    Raise (AttributeError "'str' object has no attribute 'get'") /\
  ~ empty_entries_never_raise_claim.
Proof.
  split; [reflexivity|].
  intros H.
  destruct (H "positions" (VList [])
              [("positions", VList []); ("educations", VList [VStr "MIT"])])
    as (r & Hr).
  - left. reflexivity.
  - reflexivity.
  - right. reflexivity.
  - discriminate Hr.
Qed.

(** C10 (amended): when ["positions"] (or ["educations"]) is present but maps to
    [None] or to the empty list, the getters that read it do not raise:
    the position falls back to the top-level [occupation] (default [""]),
    the company and the education are [""]; and the normaliser as a whole
    behaves exactly as on the record without that key.  It returns a
    record whenever the getters of the other key return, in particular
    when the other key is absent, [None] or empty as well. *)
Theorem empty_entries_fall_back (k : string) (v : value) (profile : raw_record) :
  k = "positions" \/ k = "educations" ->
  dict_lookup k profile = Some v ->
  v = VNone \/ v = VList [] ->
  (k = "positions" ->
   _get_position profile = Return (dict_get profile "occupation" (VStr "")) /\
   _get_company profile = Return (VStr "") /\
   forall e, _get_education profile = Return e ->
     exists r, from_api_response profile = Return r /\
               position r = dict_get profile "occupation" (VStr "") /\
               company r = VStr "" /\ education r = e) /\
  (k = "educations" ->
   _get_education profile = Return (VStr "") /\
   forall p c, _get_position profile = Return p -> _get_company profile = Return c ->
     exists r, from_api_response profile = Return r /\
               position r = p /\ company r = c /\ education r = VStr "") /\
  _get_position profile = _get_position (dict_delete k profile) /\
  _get_company profile = _get_company (dict_delete k profile) /\
  _get_education profile = _get_education (dict_delete k profile) /\
  from_api_response profile = from_api_response (dict_delete k profile) /\
  (forall k', k' = "positions" \/ k' = "educations" -> k' <> k ->
     dict_lookup k' profile = None \/ dict_lookup k' profile = Some VNone \/
     dict_lookup k' profile = Some (VList []) ->
     exists r, from_api_response profile = Return r /\
               position r = dict_get profile "occupation" (VStr "") /\
               company r = VStr "" /\ education r = VStr "").
Proof.
  intros Hk Hv Hempty.
  assert (Hfalsy : truthy v = false) by (destruct Hempty; subst v; reflexivity).
  assert (Hpos : k = "positions" ->
            _get_position profile = Return (dict_get profile "occupation" (VStr "")) /\
            _get_company profile = Return (VStr "")).
  { intros ->. rewrite _get_position_shape, _get_company_shape, Hv, Hfalsy. auto. }
  assert (Hedu : k = "educations" -> _get_education profile = Return (VStr "")).
  { intros ->. rewrite _get_education_shape, Hv, Hfalsy. auto. }
  assert (Hp : _get_position profile = _get_position (dict_delete k profile)).
  { destruct Hk as [-> | ->].
    - destruct (Hpos eq_refl) as [-> _].
      rewrite _get_position_shape, dict_lookup_delete_eq, dict_get_delete_ne by discriminate.
      reflexivity.
    - rewrite !_get_position_shape, dict_lookup_delete_ne, dict_get_delete_ne by discriminate.
      reflexivity. }
  assert (Hc : _get_company profile = _get_company (dict_delete k profile)).
  { destruct Hk as [-> | ->].
    - destruct (Hpos eq_refl) as [_ ->].
      rewrite _get_company_shape, dict_lookup_delete_eq. reflexivity.
    - rewrite !_get_company_shape, dict_lookup_delete_ne by discriminate. reflexivity. }
  assert (He : _get_education profile = _get_education (dict_delete k profile)).
  { destruct Hk as [-> | ->].
    - rewrite !_get_education_shape, dict_lookup_delete_ne by discriminate. reflexivity.
    - rewrite (Hedu eq_refl), _get_education_shape, dict_lookup_delete_eq. reflexivity. }
  split.
  { intros K. destruct (Hpos K) as [H1 H2]. repeat (split; [assumption|]).
    intros e E. unfold from_api_response. rewrite H1, H2, E. simpl.
    eexists. split; [reflexivity|]. simpl. auto. }
  split.
  { intros K. split; [auto|].
    intros p c P C. unfold from_api_response. rewrite P, C, (Hedu K). simpl.
    eexists. split; [reflexivity|]. simpl. auto. }
  repeat (split; [assumption|]).
  split.
  { apply from_api_response_depends; try assumption.
    intros j dflt Hj1 Hj2. symmetry. apply dict_get_delete_ne.
    destruct Hk; congruence. }
  intros k' Hk' Hne Hother.
  assert (Hfalsy' : match dict_lookup k' profile with
                    | Some v' => truthy v' | None => false end = false).
  { destruct Hother as [-> | [-> | ->]]; reflexivity. }
  assert (P : _get_position profile = Return (dict_get profile "occupation" (VStr "")) /\
              _get_company profile = Return (VStr "") /\
              _get_education profile = Return (VStr "")).
  { destruct Hk as [-> | ->]; destruct Hk' as [-> | ->]; try congruence.
    - destruct (Hpos eq_refl) as [H1 H2]. repeat (split; [assumption|]).
      rewrite _get_education_shape.
      destruct (dict_lookup "educations" profile) as [v'|]; [rewrite Hfalsy'|]; reflexivity.
    - split; [|split; [|auto]].
      + rewrite _get_position_shape.
        destruct (dict_lookup "positions" profile) as [v'|]; [rewrite Hfalsy'|]; reflexivity.
      + rewrite _get_company_shape.
        destruct (dict_lookup "positions" profile) as [v'|]; [rewrite Hfalsy'|]; reflexivity. }
  destruct P as (P1 & P2 & P3).
  unfold from_api_response. rewrite P1, P2, P3. cbn [obind].
  eexists. split; [reflexivity|]. cbn [position company education]. auto.
Qed.

Lemma empty_entries_fall_back_example :
  (exists r,
     from_api_response
       [("firstName", VStr "Ada"); ("occupation", VStr "Analyst");
        ("positions", VList []); ("educations", VNone)] = Return r /\
     position r = VStr "Analyst" /\ company r = VStr "" /\ education r = VStr "") /\
  from_api_response
    [("firstName", VStr "Ada"); ("occupation", VStr "Analyst");
     ("positions", VList []); ("educations", VNone)] =
  from_api_response
    [("firstName", VStr "Ada"); ("occupation", VStr "Analyst"); ("educations", VNone)].
Proof.
  destruct (empty_entries_fall_back "positions" (VList [])
              [("firstName", VStr "Ada"); ("occupation", VStr "Analyst");
               ("positions", VList []); ("educations", VNone)])
    as (H1 & _ & _ & _ & _ & H6 & _).
  - left. reflexivity.
  - reflexivity.
  - right. reflexivity.
  - split; [|exact H6].
    destruct (H1 eq_refl) as (_ & _ & H).
    exact (H (VStr "") eq_refl).
Defined.

(* ===================================================================== *)
(** * Properties of the paginator *)
(* ===================================================================== *)


Lemma page_requests_app (t1 t2 : trace) :
  page_requests (t1 ++ t2) = page_requests t1 ++ page_requests t2.
Proof.
  induction t1 as [|ev t1 IH]; simpl; [reflexivity|].
  destruct ev; simpl; rewrite IH; reflexivity.
Qed.

Lemma get_profiles_page_ok (env : Env) (self : LinkedinWebScraper) (ds : value)
    (offset limit : Z) (t : trace) (page : list value) :
  dataset_client self = Some ds ->
  list_items_api env t ds offset limit = Return page ->
  get_profiles_page env self offset limit t =
  (Return page, t ++ [EvListItems ds offset limit]).
Proof.
  intros Hds Hpage. unfold get_profiles_page, catch, list_items.
  rewrite Hds, Hpage. reflexivity.
Qed.

Lemma get_profiles_page_failed (env : Env) (self : LinkedinWebScraper) (ds : value)
    (offset limit : Z) (t : trace) (msg : string) :
  dataset_client self = Some ds ->
  list_items_api env t ds offset limit = Raise (ApifyApiError msg) ->
  get_profiles_page env self offset limit t =
  (Return [], t ++ [EvListItems ds offset limit;
                    EvLog ERROR ("Failed to fetch page: " +:+ msg)]).
Proof.
  intros Hds Hpage. unfold get_profiles_page, catch, list_items.
  rewrite Hds, Hpage. simpl.
  unfold bind, logging_error, emit, ret. rewrite <- app_assoc. reflexivity.
Qed.

Lemma reads_needed_step (n : nat) (page_size : Z) :
  0 < page_size -> (0 < n)%nat ->
  reads_needed (n - Z.to_nat page_size) page_size + 1 = reads_needed n page_size.
Proof.
  intros Hps Hn. unfold reads_needed.
  destruct (Z_lt_le_dec (Z.of_nat n) page_size) as [Hlt | Hge].
  - replace (n - Z.to_nat page_size)%nat with 0%nat by lia.
    change (Z.of_nat 0) with 0. rewrite Z.add_0_l.
    rewrite (Z.div_small (page_size - 1) page_size) by lia.
    replace (Z.of_nat n + page_size - 1) with (1 * page_size + (Z.of_nat n - 1)) by lia.
    rewrite Z.div_add_l by lia. rewrite Z.div_small by lia. lia.
  - replace (Z.of_nat (n - Z.to_nat page_size)) with (Z.of_nat n - page_size) by lia.
    replace (Z.of_nat n + page_size - 1)
      with (1 * page_size + (Z.of_nat n - page_size + page_size - 1)) by lia.
    rewrite Z.div_add_l by lia. lia.
Qed.

(** The loop invariant: from [offset] on, the loop appends what is left of
    the dataset to what it has already collected, with one read per page. *)
Lemma get_all_profiles_loop_serves (env : Env) (self : LinkedinWebScraper) (ds : value)
    (items : list value) :
  0 < page_size self ->
  dataset_client self = Some ds ->
  serves env ds items ->
  forall (fuel : nat) (all_profiles : list value) (offset : Z) (t : trace),
    0 <= offset ->
    (length (drop (Z.to_nat offset) items) < fuel)%nat ->
    exists t',
      get_all_profiles_loop fuel env self all_profiles offset t =
        Some (Return (all_profiles ++ drop (Z.to_nat offset) items), t') /\
      Z.of_nat (length (page_requests t')) =
        Z.of_nat (length (page_requests t)) +
        reads_needed (length (drop (Z.to_nat offset) items)) (page_size self).
Proof.
  intros Hps Hds Hserves fuel.
  induction fuel as [|fuel IH]; intros acc offset t Hoff Hfuel; [lia|].
  simpl.
  rewrite (get_profiles_page_ok env self ds offset (page_size self) t _ Hds
             (Hserves t offset (page_size self))).
  destruct (take (Z.to_nat (page_size self)) (drop (Z.to_nat offset) items))
    as [|x page] eqn:Hpage.
  - apply take_nil_inv in Hpage. destruct Hpage as [Hz | Hnil]; [lia|].
    rewrite Hnil, app_nil_r. eexists. split; [reflexivity|].
    rewrite page_requests_app, length_app. simpl. unfold reads_needed. simpl.
    rewrite Z.div_small by lia. lia.
  - rewrite <- Hpage.
    assert (Hpos : (0 < length (drop (Z.to_nat offset) items))%nat).
    { destruct (drop (Z.to_nat offset) items); [rewrite take_nil in Hpage; discriminate|].
      simpl. lia. }
    assert (Hdrop : drop (Z.to_nat (offset + page_size self)) items =
                    drop (Z.to_nat (page_size self)) (drop (Z.to_nat offset) items)).
    { rewrite Z2Nat.inj_add by lia. rewrite drop_drop. reflexivity. }
    destruct (IH (acc ++ take (Z.to_nat (page_size self)) (drop (Z.to_nat offset) items))
                 (offset + page_size self)
                 ((t ++ [EvListItems ds offset (page_size self)]) ++
                  [EvLog INFO
                     ("Fetched " +:+
                      pretty (length (take (Z.to_nat (page_size self))
                                        (drop (Z.to_nat offset) items))) +:+
                      " profiles. Total: " +:+
                      pretty (length (acc ++ take (Z.to_nat (page_size self))
                                               (drop (Z.to_nat offset) items))))]))
      as (t' & Ht' & Hn).
    + lia.
    + rewrite Hdrop, length_drop. lia.
    + exists t'. split.
      * rewrite Ht'. f_equal. f_equal. f_equal.
        rewrite Hdrop, <- app_assoc, take_drop. reflexivity.
      * rewrite Hn, !page_requests_app, !length_app. simpl.
        rewrite Hdrop, length_drop.
        pose proof (reads_needed_step (length (drop (Z.to_nat offset) items))
                      (page_size self) Hps Hpos).
        lia.
Qed.

(** C1: for every positive page size and every finite dataset whose page
    reads succeed, [get_all_profiles] terminates (a fuel above the number of
    items is enough) and returns exactly the dataset's items in their
    original order, after one read per page and a last, empty one; against
    an empty dataset it returns the empty list after exactly one page
    request. *)
Theorem get_all_profiles_returns_dataset (env : Env) (self : LinkedinWebScraper)
    (ds : value) (items : list value) (fuel : nat) (t : trace) :
  0 < page_size self ->
  dataset_client self = Some ds ->
  serves env ds items ->
  (length items < fuel)%nat ->
  (exists t',
     get_all_profiles fuel env self t = Some (Return items, t') /\
     Z.of_nat (length (page_requests t')) =
       Z.of_nat (length (page_requests t)) + reads_needed (length items) (page_size self)) /\
  (items = [] ->
   get_all_profiles fuel env self t =
     Some (Return [], t ++ [EvListItems ds 0 (page_size self)])).
Proof.
  intros Hps Hds Hserves Hfuel. split.
  - destruct (get_all_profiles_loop_serves env self ds items Hps Hds Hserves
                fuel [] 0 t) as (t' & Ht' & Hn); [lia| |].
    + simpl. rewrite drop_0. exact Hfuel.
    + exists t'. unfold get_all_profiles. rewrite Ht'.
      simpl in *. rewrite drop_0 in *. auto.
  - intros ->.
    destruct fuel as [|fuel]; [simpl in Hfuel; lia|].
    unfold get_all_profiles. simpl.
    rewrite (get_profiles_page_ok env self ds 0 (page_size self) t _ Hds
               (Hserves t 0 (page_size self))).
    rewrite drop_nil, take_nil. reflexivity.
Qed.

(** Reading [pages], none of them empty, takes one iteration each and
    leaves the loop where [pages_trace] says. *)
Lemma get_all_profiles_loop_pages (env : Env) (self : LinkedinWebScraper) (ds : value)
    (fuel : nat) (pages : list (list value)) :
  dataset_client self = Some ds ->
  forall (all_profiles : list value) (offset : Z) (t : trace),
    pages_read env ds (page_size self) pages all_profiles offset t ->
    get_all_profiles_loop (length pages + fuel) env self all_profiles offset t =
    get_all_profiles_loop fuel env self (all_profiles ++ concat pages)
      (offset + Z.of_nat (length pages) * page_size self)
      (pages_trace ds (page_size self) pages all_profiles offset t).
Proof.
  intros Hds. induction pages as [|page rest IH]; intros acc offset t Hread.
  - simpl. rewrite app_nil_r, Z.add_0_r. reflexivity.
  - destruct Hread as (Hne & Hpage & Hrest).
    cbn [length Nat.add get_all_profiles_loop].
    rewrite (get_profiles_page_ok env self ds offset (page_size self) t page Hds Hpage).
    destruct page as [|x page]; [congruence|].
    rewrite <- app_assoc. cbn [app].
    change [EvListItems ds offset (page_size self);
            EvLog INFO ("Fetched " +:+ pretty (length (x :: page)) +:+
                        " profiles. Total: " +:+ pretty (length (acc ++ x :: page)))]
      with (page_events ds (page_size self) acc (x :: page) offset).
    rewrite (IH _ _ _ Hrest). cbn [pages_trace concat].
    rewrite <- app_assoc.
    replace (offset + page_size self + Z.of_nat (length rest) * page_size self)
      with (offset + Z.of_nat (length ((x :: page) :: rest)) * page_size self)
      by (cbn [length]; rewrite Nat2Z.inj_succ; ring).
    reflexivity.
Qed.

(** C5, as stated, fails: a page read that times out below the Apify
    client raises something that is not an [ApifyApiError]; it is not
    logged, it leaves [get_all_profiles], and the two profiles of the first
    page are not returned. *)
Lemma timeout_read_is_raised :
  get_all_profiles 2 (env_timeout [ada; alan; grace] 1) (scraper_on (VStr "ds-1") 2) [] =
    Some (Raise (OtherException "ReadTimeout"),
          [EvListItems (VStr "ds-1") 0 2; EvLog INFO "Fetched 2 profiles. Total: 2";
           EvListItems (VStr "ds-1") 2 2]) /\
  ~ failed_read_is_empty_page_claim.
Proof.
  split; [reflexivity|].
  intros H.
  specialize (H (env_timeout [ada; alan; grace] 1) (scraper_on (VStr "ds-1") 2)
                (VStr "ds-1") 0%nat [ada; alan] 2
                [EvListItems (VStr "ds-1") 0 2; EvLog INFO "Fetched 2 profiles. Total: 2"]
                (OtherException "ReadTimeout") eq_refl eq_refl).
  vm_compute in H. discriminate H.
Qed.

(** C5 (amended): when the dataset has answered any number of reads with
    non-empty pages and the next read fails with [ApifyApiError],
    [get_profiles_page] logs the error and returns the empty page; the loop
    of [get_all_profiles] stops there and returns the items of the pages
    read before.  The trace ends with the one request for the failed page
    and the error log entry: nothing is raised, nothing is retried. *)
Theorem failed_page_ends_pagination (env : Env) (self : LinkedinWebScraper) (ds : value)
    (fuel : nat) (pages : list (list value)) (all_profiles : list value) (offset : Z)
    (t : trace) (msg : string) :
  dataset_client self = Some ds ->
  pages_read env ds (page_size self) pages all_profiles offset t ->
  list_items_api env (pages_trace ds (page_size self) pages all_profiles offset t) ds
    (offset + Z.of_nat (length pages) * page_size self) (page_size self) =
    Raise (ApifyApiError msg) ->
  get_profiles_page env self (offset + Z.of_nat (length pages) * page_size self)
    (page_size self) (pages_trace ds (page_size self) pages all_profiles offset t) =
    (Return [],
     pages_trace ds (page_size self) pages all_profiles offset t ++
     [EvListItems ds (offset + Z.of_nat (length pages) * page_size self) (page_size self);
      EvLog ERROR ("Failed to fetch page: " +:+ msg)]) /\
  get_all_profiles_loop (length pages + S fuel) env self all_profiles offset t =
    Some (Return (all_profiles ++ concat pages),
          pages_trace ds (page_size self) pages all_profiles offset t ++
          [EvListItems ds (offset + Z.of_nat (length pages) * page_size self)
             (page_size self);
           EvLog ERROR ("Failed to fetch page: " +:+ msg)]) /\
  (all_profiles = [] -> offset = 0 ->
   get_all_profiles (length pages + S fuel) env self t =
     Some (Return (concat pages),
           pages_trace ds (page_size self) pages [] 0 t ++
           [EvListItems ds (Z.of_nat (length pages) * page_size self) (page_size self);
            EvLog ERROR ("Failed to fetch page: " +:+ msg)])).
Proof.
  intros Hds Hread Hfail.
  pose proof (get_profiles_page_failed env self ds _ (page_size self) _ msg Hds Hfail)
    as Hpage.
  assert (Hloop :
    get_all_profiles_loop (length pages + S fuel) env self all_profiles offset t =
    Some (Return (all_profiles ++ concat pages),
          pages_trace ds (page_size self) pages all_profiles offset t ++
          [EvListItems ds (offset + Z.of_nat (length pages) * page_size self)
             (page_size self);
           EvLog ERROR ("Failed to fetch page: " +:+ msg)])).
  { rewrite (get_all_profiles_loop_pages env self ds (S fuel) pages Hds _ _ _ Hread).
    cbn [get_all_profiles_loop]. rewrite Hpage. reflexivity. }
  split; [exact Hpage|]. split; [exact Hloop|].
  intros -> ->. unfold get_all_profiles. rewrite Hloop. reflexivity.
Qed.

(* ===================================================================== *)
(** * The paginator on concrete datasets *)
(* ===================================================================== *)

Lemma get_all_profiles_returns_dataset_example :
  (exists t',
     get_all_profiles 4 (env_dataset [ada; alan; grace]) (scraper_on (VStr "ds-1") 2) [] =
       Some (Return [ada; alan; grace], t') /\
     Z.of_nat (length (page_requests t')) = 3) /\
  get_all_profiles 1 (env_dataset []) (scraper_on (VStr "ds-1") 2) [] =
    Some (Return [], [EvListItems (VStr "ds-1") 0 2]).
Proof.
  split.
  - destruct (get_all_profiles_returns_dataset (env_dataset [ada; alan; grace])
                (scraper_on (VStr "ds-1") 2) (VStr "ds-1") [ada; alan; grace] 4 [])
      as [H _].
    + simpl. lia.
    + reflexivity.
    + intros t offset limit. reflexivity.
    + simpl. lia.
    + exact H.
  - destruct (get_all_profiles_returns_dataset (env_dataset [])
                (scraper_on (VStr "ds-1") 2) (VStr "ds-1") [] 1 [])
      as [_ H].
    + simpl. lia.
    + reflexivity.
    + intros t offset limit. reflexivity.
    + simpl. lia.
    + exact (H eq_refl).
Defined.

Lemma failed_page_ends_pagination_example :
  get_all_profiles 2 (env_flaky [ada; alan; grace] 1) (scraper_on (VStr "ds-1") 2) [] =
  Some (Return [ada; alan],
        [EvListItems (VStr "ds-1") 0 2; EvLog INFO "Fetched 2 profiles. Total: 2";
         EvListItems (VStr "ds-1") 2 2;
         EvLog ERROR "Failed to fetch page: Internal Server Error"]).
Proof.
  destruct (failed_page_ends_pagination (env_flaky [ada; alan; grace] 1)
              (scraper_on (VStr "ds-1") 2) (VStr "ds-1") 0 [[ada; alan]] [] 0 []
              "Internal Server Error") as (_ & _ & H).
  - reflexivity.
  - split; [discriminate|]. split; [reflexivity|exact I].
  - reflexivity.
  - exact (H eq_refl eq_refl).
Defined.

(** An error other than [ApifyApiError] is not handled by the page reader. *)
Lemma get_profiles_page_other_error (env : Env) (self : LinkedinWebScraper) (ds : value)
    (offset limit : Z) (t : trace) (e : exn) :
  dataset_client self = Some ds ->
  list_items_api env t ds offset limit = Raise e ->
  is_ApifyApiError e = false ->
  get_profiles_page env self offset limit t = (Raise e, t ++ [EvListItems ds offset limit]).
Proof.
  intros Hds Hpage He. unfold get_profiles_page, catch, list_items.
  rewrite Hds, Hpage, He. reflexivity.
Qed.

(* ===================================================================== *)
(** * Properties of the job launcher *)
(* ===================================================================== *)

(** Without a dataset client the page reader raises before any request. *)
Lemma get_profiles_page_unavailable (env : Env) (self : LinkedinWebScraper)
    (offset limit : Z) (t : trace) :
  dataset_client self = None ->
  get_profiles_page env self offset limit t =
  (Raise (AttributeError "'NoneType' object has no attribute 'list_items'"), t).
Proof.
  intros Hds. unfold get_profiles_page, catch. rewrite Hds. reflexivity.
Qed.

Lemma get_formatted_results_unavailable (env : Env) (self : LinkedinWebScraper)
    (fuel : nat) (t : trace) :
  dataset_client self = None ->
  get_formatted_results (S fuel) env self t =
  Some (Raise (AttributeError "'NoneType' object has no attribute 'list_items'"), t).
Proof.
  intros Hds. unfold get_formatted_results, get_all_profiles. simpl.
  rewrite get_profiles_page_unavailable by assumption. reflexivity.
Qed.

(** X4: a launch that fails with [ApifyApiError] does not leave
    [__init__]: the scraper comes out with [actor_call = None] and without
    a dataset client, and no page has been read. *)
Lemma launch_failure_unavailable (env : Env) (config_path : string) (page_size : Z)
    (t : trace) (config actor_name run_input : value) (msg : string) :
  Helper.get_actor_config env config_path t = (Return config, t) ->
  getitem_str config "actor_name" = Return actor_name ->
  getitem_str config "actor_input" = Return run_input ->
  actor_call_api env t actor_name run_input = Raise (ApifyApiError msg) ->
  exists t',
    __init__ env config_path page_size t =
      (Return {| Linkedin.page_size := page_size; actor_call := VNone;
                 dataset_client := None |}, t') /\
    page_requests t' = page_requests t.
Proof.
  intros Hcfg Hname Hinput Hcall.
  unfold __init__, bind, catch at 1. rewrite Hcfg.
  unfold catch, bind, lift, call_actor. rewrite Hname, Hinput, Hcall. simpl.
  unfold print, emit, ret.
  destruct (contains "rate-limit" (lower msg) || contains "429" msg); simpl;
    (eexists; split; [reflexivity|]);
    rewrite ?page_requests_app; simpl; rewrite ?app_nil_r; reflexivity.
Qed.

(** C2 (the code departs from it): after a launch that fails with a
    rate-limit error the scraper is in the unavailable state and no page
    is ever read, but [get_formatted_results] does not return ["[]"]: the
    page reader dereferences the missing dataset client and the
    [AttributeError] reaches the caller. *)
Theorem unavailable_formatted_results_raises (fuel : nat) :
  __init__ env_rate_limited "linkedin_config.json" 100 [] =
    (Return {| Linkedin.page_size := 100; actor_call := VNone; dataset_client := None |},
     [EvActorCall (VStr "curious_coder/linkedin-profile-scraper")
        (VDict [("urls", VList []); ("cookie", VStr "li_at=secret")]);
      EvPrint "Error while running actor: Too Many Requests (status 429)";
      EvPrint "Detected possible rate limit or scraping block."]) /\
  get_formatted_results (S fuel) env_rate_limited
    {| Linkedin.page_size := 100; actor_call := VNone; dataset_client := None |}
    [EvActorCall (VStr "curious_coder/linkedin-profile-scraper")
       (VDict [("urls", VList []); ("cookie", VStr "li_at=secret")]);
     EvPrint "Error while running actor: Too Many Requests (status 429)";
     EvPrint "Detected possible rate limit or scraping block."] =
    Some (Raise (AttributeError "'NoneType' object has no attribute 'list_items'"),
          [EvActorCall (VStr "curious_coder/linkedin-profile-scraper")
             (VDict [("urls", VList []); ("cookie", VStr "li_at=secret")]);
           EvPrint "Error while running actor: Too Many Requests (status 429)";
           EvPrint "Detected possible rate limit or scraping block."]).
Proof.
  split; [reflexivity|].
  apply get_formatted_results_unavailable. reflexivity.
Qed.

(** What the claim expects is what an empty dataset gives. *)
Lemma empty_dataset_formatted_results :
  get_formatted_results 1 (env_dataset []) (scraper_on (VStr "ds-1") 100) [] =
  Some (Return "[]", [EvListItems (VStr "ds-1") 0 100]).
Proof. reflexivity. Qed.

(** When the configuration cannot be loaded, [config] is [None] and the
    next statement subscripts it. *)
Lemma config_failure_raises (env : Env) (config_path : string) (page_size : Z)
    (t : trace) (e : exn) :
  load_json env config_path = Raise e ->
  exists msg,
    __init__ env config_path page_size t =
    (Raise (TypeError "'NoneType' object is not subscriptable"),
     t ++ [EvLog ERROR msg]).
Proof.
  intros Hload.
  unfold __init__, bind, catch at 1.
  unfold Helper.get_actor_config, bind, lift. rewrite Hload.
  destruct e; simpl; eexists; reflexivity.
Qed.

(** C4 (the code departs from it): with the configuration file missing,
    the initialiser logs the error and makes no remote call, but it does
    not reach the unavailable state: [config["actor_name"]] on [None]
    raises [TypeError], which only an [except ApifyApiError] guards. *)
Theorem missing_config_raises_type_error (page_size : Z) :
  __init__ env_no_config "linkedin_config.json" page_size [] =
  (Raise (TypeError "'NoneType' object is not subscriptable"),
   [EvLog ERROR "Configuration file linkedin_config.json not found."]).
Proof. reflexivity. Qed.

(* ===================================================================== *)
(** * Properties of the GitHub fetcher *)
(* ===================================================================== *)

Import GitHub.


Lemma on_request_exception_bound (login : string) (r : Response) (e : exn) (t : trace) :
  on_request_exception login (Some r) e t = (Return tt, t ++ [failure_log login r e]).
Proof.
  unfold on_request_exception, failure_log.
  destruct (status_code r =? 404); [reflexivity|].
  destruct (status_code r =? 403); reflexivity.
Qed.

(** An identifier whose lookup comes back with a 4xx or 5xx status adds
    nothing to the list, logs one line, and the loop goes on with the
    remaining identifiers. *)
Lemma http_error_is_skipped (env : Env) (login : string) (rest : list string)
    (response : option Response) (acc : list GitHubProfile) (t : trace) (r : Response) :
  requests_get env t (BASE_URL +:+ "/" +:+ login) = Return r ->
  400 <= status_code r < 600 ->
  exists e,
    fetch_profiles_loop env (login :: rest) response acc t =
    fetch_profiles_loop env rest (Some r) acc
      (t ++ [EvHttpGet (BASE_URL +:+ "/" +:+ login); failure_log login r e]).
Proof.
  intros Hget Hstatus.
  assert (Hraise : exists e, raise_for_status r = Raise e /\ is_RequestException e = true).
  { unfold raise_for_status.
    destruct ((400 <=? status_code r) && (status_code r <? 500)) eqn:E4.
    - eexists. split; reflexivity.
    - assert ((500 <=? status_code r) && (status_code r <? 600) = true) as ->.
      { apply andb_false_iff in E4. apply andb_true_iff. split.
        - apply Z.leb_le. destruct E4 as [E|E].
          + apply Z.leb_gt in E. lia.
          + apply Z.ltb_ge in E. lia.
        - apply Z.ltb_lt. lia. }
      eexists. split; reflexivity. }
  destruct Hraise as (e & He & Hreq). exists e.
  cbn [fetch_profiles_loop]. unfold http_get. rewrite Hget.
  unfold bind at 1, catch, after_get, bind at 1, lift. rewrite He, Hreq.
  unfold bind at 1. rewrite on_request_exception_bound.
  unfold ret. rewrite <- app_assoc. reflexivity.
Qed.

(** Five identifiers, one of them unknown to GitHub: four profiles. *)
Lemma five_identifiers_one_404 :
  exists self t,
    GitHub.__init__ (env_github four_users)
      ["wincent"; "jericho1050"; "brianyu2"; "dmalan"; "torvalds"] 30 [] =
      (Return self, t) /\
    length (github_profiles self) = 4%nat /\
    map username (github_profiles self) =
      [VStr "wincent"; VStr "jericho1050"; VStr "dmalan"; VStr "torvalds"] /\
    In (EvLog ERROR "User brianyu2 not found") t.
Proof.
  eexists. eexists. split; [reflexivity|]. simpl.
  split; [reflexivity|]. split; [reflexivity|]. tauto.
Qed.

(** A lookup that fails before any response exists (no connection, a
    timeout) on the first identifier: the [except] block reads
    [response.status_code] from a variable that was never assigned. *)
Lemma first_request_failure_raises (env : Env) (login : string) (rest : list string)
    (acc : list GitHubProfile) (t : trace) (msg : string) :
  requests_get env t (BASE_URL +:+ "/" +:+ login) = Raise (RequestException msg) ->
  fetch_profiles_loop env (login :: rest) None acc t =
  (Raise (UnboundLocalError
            "cannot access local variable 'response' where it is not associated with a value"),
   t ++ [EvHttpGet (BASE_URL +:+ "/" +:+ login)]).
Proof.
  intros Hget. simpl. unfold http_get. rewrite Hget. reflexivity.
Qed.

(** X14: when the request itself fails on a later identifier, the handler
    reads the response left over from the previous identifier: nothing is
    raised, the identifier is skipped, and the log line is chosen from the
    previous answer's status code. *)
Lemma later_request_failure_is_skipped (env : Env) (login : string) (rest : list string)
    (previous : Response) (acc : list GitHubProfile) (t : trace) (msg : string) :
  requests_get env t (BASE_URL +:+ "/" +:+ login) = Raise (RequestException msg) ->
  fetch_profiles_loop env (login :: rest) (Some previous) acc t =
  fetch_profiles_loop env rest (Some previous) acc
    (t ++ [EvHttpGet (BASE_URL +:+ "/" +:+ login);
           failure_log login previous (RequestException msg)]).
Proof.
  intros Hget. cbn [fetch_profiles_loop]. unfold http_get. rewrite Hget.
  cbn [is_RequestException].
  unfold bind at 1. rewrite on_request_exception_bound.
  rewrite <- app_assoc. reflexivity.
Qed.

(** C6 (the code departs from it): a lookup failure can reach the caller.
    With the network down, the request for the first of the five
    identifiers raises [ConnectionError]; the handler then raises
    [UnboundLocalError], [fetch_profiles] stops, and none of the remaining
    identifiers is looked up. *)
Theorem offline_fetch_raises_unbound_local :
  GitHub.__init__ env_offline
    ["wincent"; "jericho1050"; "brianyu2"; "dmalan"; "torvalds"] 30 [] =
  (Raise (UnboundLocalError
            "cannot access local variable 'response' where it is not associated with a value"),
   [EvLog INFO "Initializing GitHub scraper for 5 users";
    EvHttpGet "https://api.github.com/users/wincent"]).
Proof. reflexivity. Qed.

(** C8: for a successful lookup whose JSON object has the three required
    keys, the profile appended by [fetch_profiles] copies [login],
    [public_repos] and [followers] verbatim, and takes [name] and [bio] as
    they are; when [name] (or [bio]) is absent the field is [None], which
    is not the empty string. *)
Theorem github_absent_fields_preserved (env : Env) (login : string) (r : Response)
    (d : list (string * value)) (user repos fans : value)
    (response : option Response) (acc : list GitHubProfile) (t : trace) :
  requests_get env t (BASE_URL +:+ "/" +:+ login) = Return r ->
  raise_for_status r = Return tt ->
  json r = Return (VDict d) ->
  dict_lookup "login" d = Some user ->
  dict_lookup "public_repos" d = Some repos ->
  dict_lookup "followers" d = Some fans ->
  exists p,
    make_profile (VDict d) = Return p /\
    fetch_profiles_loop env [login] response acc t =
      (Return (acc ++ [p]),
       t ++ [EvHttpGet (BASE_URL +:+ "/" +:+ login);
             EvLog INFO ("Fetched profile for " +:+ login)]) /\
    username p = user /\ public_repos p = repos /\ followers p = fans /\
    full_name p = dict_get d "name" VNone /\
    bio p = dict_get d "bio" VNone /\
    (dict_lookup "name" d = None -> full_name p = VNone /\ full_name p <> VStr "") /\
    (dict_lookup "bio" d = None -> bio p = VNone /\ bio p <> VStr "").
Proof.
  intros Hget Hstatus Hjson Hlogin Hrepos Hfans.
  assert (Hp : make_profile (VDict d) =
               Return {| username := user; full_name := dict_get d "name" VNone;
                         bio := dict_get d "bio" VNone;
                         public_repos := repos; followers := fans |}).
  { unfold make_profile. simpl. rewrite Hlogin, Hrepos, Hfans. reflexivity. }
  eexists. split; [exact Hp|]. split.
  - cbn [fetch_profiles_loop]. unfold http_get. rewrite Hget.
    unfold bind at 1, catch, after_get, bind at 1, lift.
    rewrite Hstatus. unfold bind at 1. rewrite Hjson.
    unfold bind at 1. rewrite Hp.
    unfold bind, logging_info, emit, ret. rewrite <- app_assoc. reflexivity.
  - simpl. repeat split; try reflexivity.
    + apply dict_get_absent. assumption.
    + rewrite dict_get_absent by assumption. discriminate.
    + apply dict_get_absent. assumption.
    + rewrite dict_get_absent by assumption. discriminate.
Qed.

Lemma github_absent_fields_preserved_example :
  exists p,
    fetch_profiles_loop (env_github four_users) ["jericho1050"] None [] [] =
      (Return [p],
       [EvHttpGet "https://api.github.com/users/jericho1050";
        EvLog INFO "Fetched profile for jericho1050"]) /\
    username p = VStr "jericho1050" /\
    (full_name p = VNone /\ full_name p <> VStr "") /\
    (bio p = VNone /\ bio p <> VStr "") /\
    public_repos p = VInt 20 /\ followers p = VInt 3.
Proof.
  destruct (github_absent_fields_preserved (env_github four_users) "jericho1050"
              (github_user_sparse "jericho1050" 20 3)
              [("login", VStr "jericho1050");
               ("public_repos", VInt 20); ("followers", VInt 3)]
              (VStr "jericho1050") (VInt 20) (VInt 3) None [] [])
    as (p & _ & Hrun & Hu & Hr & Hf & _ & _ & Hname & Hbio); try reflexivity.
  exists p. repeat split; try assumption.
  - apply Hname. reflexivity.
  - apply Hname. reflexivity.
  - apply Hbio. reflexivity.
  - apply Hbio. reflexivity.
Defined.

(* ===================================================================== *)
(** * Properties of the CSV exporter *)
(* ===================================================================== *)




(* ===================================================================== *)
(** * Properties of the configuration loader *)
(* ===================================================================== *)

Lemma dict_lookup_set_eq (k : string) (v : value) (d : list (string * value)) :
  dict_lookup k (dict_set k v d) = Some v.
Proof.
  induction d as [|[k' v'] d IH]; simpl.
  - rewrite String.eqb_refl. reflexivity.
  - destruct (String.eqb k k') eqn:E; simpl.
    + rewrite String.eqb_refl. reflexivity.
    + rewrite E. exact IH.
Qed.

Lemma dict_lookup_set_ne (k j : string) (v : value) (d : list (string * value)) :
  j <> k -> dict_lookup j (dict_set k v d) = dict_lookup j d.
Proof.
  intros Hne. induction d as [|[k' v'] d IH]; simpl.
  - destruct (String.eqb j k) eqn:E; [|reflexivity].
    apply String.eqb_eq in E. congruence.
  - destruct (String.eqb k k') eqn:E; simpl.
    + apply String.eqb_eq in E. subst k'.
      destruct (String.eqb j k) eqn:E'; [|reflexivity].
      apply String.eqb_eq in E'. congruence.
    + rewrite IH. reflexivity.
Qed.

Lemma dict_set_keys (k : string) (v x : value) (d : list (string * value)) :
  dict_lookup k d = Some x -> map fst (dict_set k v d) = map fst d.
Proof.
  induction d as [|[k' v'] d IH]; simpl; [discriminate|].
  destruct (String.eqb k k') eqn:E; simpl.
  - apply String.eqb_eq in E. subst k'. reflexivity.
  - intros H. rewrite IH by exact H. reflexivity.
Qed.

Lemma get_actor_config_ok (env : Env) (config_path : string) (t : trace)
    (d ai c : list (string * value)) (ck : value) :
  load_json env config_path = Return (VDict d) ->
  dict_lookup "actor_input" d = Some (VDict ai) ->
  load_json env "input.JSON" = Return (VDict c) ->
  dict_lookup "cookie" c = Some ck ->
  Helper.get_actor_config env config_path t =
  (Return (VDict (dict_set "actor_input" (VDict (dict_set "cookie" ck ai)) d)), t).
Proof.
  intros Hcfg Hinput Hfile Hcookie.
  unfold Helper.get_actor_config, Helper.get_input_cookie, bind, lift.
  rewrite Hcfg, Hfile. simpl. rewrite Hcookie, Hinput. reflexivity.
Qed.

(** X1: when both files load, [get_actor_config] returns the configuration
    with the cookie of [input.JSON] stored under
    [config["actor_input"]["cookie"]]; every other key of [actor_input],
    every other top-level key and the order of the top-level keys are
    those of the configuration file; nothing is logged or sent. *)
Theorem get_actor_config_injects_cookie (env : Env) (config_path : string) (t : trace)
    (d ai c : list (string * value)) (ck : value) :
  load_json env config_path = Return (VDict d) ->
  dict_lookup "actor_input" d = Some (VDict ai) ->
  load_json env "input.JSON" = Return (VDict c) ->
  dict_lookup "cookie" c = Some ck ->
  exists d' ai',
    Helper.get_actor_config env config_path t = (Return (VDict d'), t) /\
    dict_lookup "actor_input" d' = Some (VDict ai') /\
    dict_lookup "cookie" ai' = Some ck /\
    (forall k, k <> "cookie" -> dict_lookup k ai' = dict_lookup k ai) /\
    (forall k, k <> "actor_input" -> dict_lookup k d' = dict_lookup k d) /\
    map fst d' = map fst d.
Proof.
  intros Hcfg Hinput Hfile Hcookie.
  exists (dict_set "actor_input" (VDict (dict_set "cookie" ck ai)) d),
         (dict_set "cookie" ck ai).
  split; [apply (get_actor_config_ok env config_path t d ai c ck); assumption|].
  split; [apply dict_lookup_set_eq|].
  split; [apply dict_lookup_set_eq|].
  split; [intros k Hk; apply dict_lookup_set_ne; exact Hk|].
  split; [intros k Hk; apply dict_lookup_set_ne; exact Hk|].
  eapply dict_set_keys. exact Hinput.
Qed.

Lemma get_actor_config_injects_cookie_example :
  exists d' ai',
    Helper.get_actor_config (env_dataset []) "linkedin_config.json" [] =
      (Return (VDict d'), []) /\
    dict_lookup "actor_input" d' = Some (VDict ai') /\
    dict_lookup "cookie" ai' = Some (VStr "li_at=secret") /\
    dict_lookup "urls" ai' = Some (VList []) /\
    map fst d' = ["actor_name"; "actor_input"].
Proof.
  destruct (get_actor_config_injects_cookie (env_dataset []) "linkedin_config.json" []
              [("actor_name", VStr "curious_coder/linkedin-profile-scraper");
               ("actor_input", VDict [("urls", VList [])])]
              [("urls", VList [])] [("cookie", VStr "li_at=secret")]
              (VStr "li_at=secret"))
    as (d' & ai' & H & Hai & Hck & Hother & _ & Hkeys); try reflexivity.
  exists d', ai'. repeat split; try assumption.
  rewrite (Hother "urls") by discriminate. reflexivity.
Defined.

(** X2: [get_actor_config] returns a configuration exactly when the
    configuration file holds a JSON object whose ["actor_input"] is a JSON
    object and [input.JSON] holds a JSON object with a ["cookie"] key; in
    every other case it raises.  It never logs and never calls out. *)
Theorem get_actor_config_returns_iff (env : Env) (config_path : string) (t : trace) :
  (exists config, fst (Helper.get_actor_config env config_path t) = Return config) <->
  (exists d ai c ck,
     load_json env config_path = Return (VDict d) /\
     dict_lookup "actor_input" d = Some (VDict ai) /\
     load_json env "input.JSON" = Return (VDict c) /\
     dict_lookup "cookie" c = Some ck).
Proof.
  split.
  - intros (config & H).
    unfold Helper.get_actor_config, Helper.get_input_cookie, bind, lift in H.
    destruct (load_json env config_path) as [cfg|]; [|discriminate].
    destruct (load_json env "input.JSON") as [inp|]; [|discriminate].
    simpl in H.
    destruct inp as [| | | | |?|c]; try discriminate.
    simpl in H.
    destruct (dict_lookup "cookie" c) as [ck|] eqn:Hck; [|discriminate].
    destruct cfg as [| | | | |?|d]; try discriminate.
    simpl in H.
    destruct (dict_lookup "actor_input" d) as [ai|] eqn:Hai; [|discriminate].
    destruct ai as [| | | | |?|ai]; try discriminate.
    exists d, ai, c, ck. auto.
  - intros (d & ai & c & ck & H1 & H2 & H3 & H4).
    eexists. rewrite (get_actor_config_ok env config_path t d ai c ck H1 H2 H3 H4).
    reflexivity.
Qed.

Lemma get_actor_config_returns_iff_example :
  (exists config,
     fst (Helper.get_actor_config (env_dataset []) "linkedin_config.json" []) =
     Return config) /\
  ~ (exists config,
       fst (Helper.get_actor_config env_no_config "linkedin_config.json" []) =
       Return config).
Proof.
  split.
  - apply (get_actor_config_returns_iff (env_dataset []) "linkedin_config.json" []).
    exists [("actor_name", VStr "curious_coder/linkedin-profile-scraper");
            ("actor_input", VDict [("urls", VList [])])],
           [("urls", VList [])], [("cookie", VStr "li_at=secret")], (VStr "li_at=secret").
    repeat split; reflexivity.
  - intros H.
    apply (get_actor_config_returns_iff env_no_config "linkedin_config.json" []) in H.
    destruct H as (d & ai & c & ck & H & _). discriminate H.
Defined.

(* ===================================================================== *)
(** * Further properties of the job launcher *)
(* ===================================================================== *)

(** X3: when both files load and the platform answers the launch with a
    run that names its dataset, [__init__] returns a scraper bound to that
    dataset.  The actor is called once, under the configured name, with
    the configured input extended by the cookie; nothing is logged. *)
Theorem init_launches_actor_with_cookie (env : Env) (config_path : string) (page_size : Z)
    (t : trace) (d ai c run : list (string * value)) (actor_name ck dataset_id : value) :
  load_json env config_path = Return (VDict d) ->
  dict_lookup "actor_name" d = Some actor_name ->
  dict_lookup "actor_input" d = Some (VDict ai) ->
  load_json env "input.JSON" = Return (VDict c) ->
  dict_lookup "cookie" c = Some ck ->
  actor_call_api env t actor_name (VDict (dict_set "cookie" ck ai)) = Return (VDict run) ->
  dict_lookup "defaultDatasetId" run = Some dataset_id ->
  Linkedin.__init__ env config_path page_size t =
    (Return {| Linkedin.page_size := page_size; actor_call := VDict run;
               dataset_client := Some dataset_id |},
     t ++ [EvActorCall actor_name (VDict (dict_set "cookie" ck ai))]) /\
  dict_lookup "cookie" (dict_set "cookie" ck ai) = Some ck.
Proof.
  intros Hcfg Hname Hinput Hfile Hcookie Hcall Hid.
  split; [|apply dict_lookup_set_eq].
  unfold Linkedin.__init__, bind, catch at 1.
  rewrite (get_actor_config_ok env config_path t d ai c ck Hcfg Hinput Hfile Hcookie).
  unfold catch, bind, lift, call_actor.
  cbn [getitem_str].
  rewrite dict_lookup_set_ne by discriminate. rewrite Hname.
  rewrite dict_lookup_set_eq. rewrite Hcall.
  assert (Htruthy : truthy (VDict run) = true).
  { destruct run; [discriminate Hid|reflexivity]. }
  rewrite Htruthy. cbn [getitem_str]. rewrite Hid. reflexivity.
Qed.

Lemma init_launches_actor_with_cookie_example :
  Linkedin.__init__ (env_dataset [ada]) "linkedin_config.json" 100 [] =
  (Return (scraper_on (VStr "ds-1") 100),
   [EvActorCall (VStr "curious_coder/linkedin-profile-scraper")
      (VDict [("urls", VList []); ("cookie", VStr "li_at=secret")])]).
Proof.
  apply (init_launches_actor_with_cookie (env_dataset [ada]) "linkedin_config.json" 100 []
           [("actor_name", VStr "curious_coder/linkedin-profile-scraper");
            ("actor_input", VDict [("urls", VList [])])]
           [("urls", VList [])] [("cookie", VStr "li_at=secret")]
           [("defaultDatasetId", VStr "ds-1")]
           (VStr "curious_coder/linkedin-profile-scraper") (VStr "li_at=secret")
           (VStr "ds-1")); reflexivity.
Defined.

Lemma launch_failure_unavailable_example :
  exists t',
    Linkedin.__init__ env_rate_limited "linkedin_config.json" 100 [] =
      (Return {| Linkedin.page_size := 100; actor_call := VNone; dataset_client := None |},
       t') /\
    page_requests t' = [].
Proof.
  apply (launch_failure_unavailable env_rate_limited "linkedin_config.json" 100 []
           (VDict [("actor_name", VStr "curious_coder/linkedin-profile-scraper");
                   ("actor_input", VDict [("urls", VList []);
                                          ("cookie", VStr "li_at=secret")])])
           (VStr "curious_coder/linkedin-profile-scraper")
           (VDict [("urls", VList []); ("cookie", VStr "li_at=secret")])
           "Too Many Requests (status 429)"); reflexivity.
Defined.

Lemma get_actor_config_trace (env : Env) (config_path : string) (t : trace) :
  snd (Helper.get_actor_config env config_path t) = t.
Proof.
  unfold Helper.get_actor_config, Helper.get_input_cookie, bind, lift.
  destruct (load_json env config_path) as [cfg|]; [|reflexivity].
  destruct (load_json env "input.JSON") as [inp|]; [|reflexivity].
  destruct (getitem_str inp "cookie") as [ck|]; [|reflexivity].
  destruct (getitem_str cfg "actor_input") as [ai|]; [|reflexivity].
  destruct (setitem_str ai "cookie" ck) as [ai'|]; reflexivity.
Qed.

(** X5: whatever the files hold and whatever the platform answers,
    [__init__] launches the actor at most once and does nothing else
    outside: it reads no dataset page, sends no HTTP request and writes no
    file. *)
Theorem init_calls_out_at_most_once (env : Env) (config_path : string) (page_size : Z)
    (t : trace) :
  exists evs,
    snd (Linkedin.__init__ env config_path page_size t) = t ++ evs /\
    (length (actor_calls evs) <= 1)%nat /\
    page_requests evs = [] /\ http_requests evs = [] /\ files_written evs = [].
Proof.
  unfold Linkedin.__init__, bind, catch at 1.
  destruct (Helper.get_actor_config env config_path t) as [[config|e] t0] eqn:Hcfg.
  - assert (t0 = t) as ->.
    { pose proof (get_actor_config_trace env config_path t) as Ht.
      rewrite Hcfg in Ht. exact Ht. }
    unfold catch, bind, lift, call_actor.
    destruct (getitem_str config "actor_name") as [actor_name|e1].
    + destruct (getitem_str config "actor_input") as [run_input|e2].
      * destruct (actor_call_api env t actor_name run_input) as [run|e3].
        -- destruct (truthy run).
           ++ destruct (getitem_str run "defaultDatasetId");
                (exists [EvActorCall actor_name run_input]; simpl; auto).
           ++ exists [EvActorCall actor_name run_input]. simpl. auto.
        -- destruct (is_ApifyApiError e3).
           ++ unfold print, emit, ret.
              destruct (contains "rate-limit" (lower (exn_str e3)) ||
                        contains "429" (exn_str e3)); simpl;
                rewrite <- ?app_assoc; eexists; (split; [reflexivity|]); simpl; auto.
           ++ exists [EvActorCall actor_name run_input]. simpl. auto.
      * destruct (is_ApifyApiError e2).
        -- unfold print, emit, ret.
           destruct (contains "rate-limit" (lower (exn_str e2)) ||
                     contains "429" (exn_str e2)); simpl;
             rewrite <- ?app_assoc; eexists; (split; [reflexivity|]); simpl; auto.
        -- exists []. simpl. rewrite app_nil_r. auto.
    + destruct (is_ApifyApiError e1).
      * unfold print, emit, ret.
        destruct (contains "rate-limit" (lower (exn_str e1)) ||
                  contains "429" (exn_str e1)); simpl;
          rewrite <- ?app_assoc; eexists; (split; [reflexivity|]); simpl; auto.
      * exists []. simpl. rewrite app_nil_r. auto.
  - assert (t0 = t) as ->.
    { pose proof (get_actor_config_trace env config_path t) as Ht.
      rewrite Hcfg in Ht. exact Ht. }
    destruct e; (eexists; split; [reflexivity|simpl; auto]).
Qed.

(* ===================================================================== *)
(** * Further properties of the LinkedIn normaliser *)
(* ===================================================================== *)

Lemma lstrip_no_leading_space (s : string) : starts_with_space (lstrip s) = false.
Proof.
  induction s as [|c s IH]; [reflexivity|].
  simpl. destruct (is_space c) eqn:E; [exact IH|]. simpl. exact E.
Qed.

Lemma rstrip_keeps_start (s : string) :
  starts_with_space s = false -> starts_with_space (rstrip s) = false.
Proof.
  destruct s as [|c s]; [reflexivity|].
  simpl. intros Hc. destruct (rstrip s); [rewrite Hc|]; simpl; auto.
Qed.

Lemma rstrip_no_trailing_space (s : string) : ends_with_space (rstrip s) = false.
Proof.
  induction s as [|c s IH]; [reflexivity|].
  simpl. destruct (rstrip s) as [|c' r] eqn:E.
  - destruct (is_space c) eqn:Ec; simpl; auto.
  - exact IH.
Qed.

Lemma rstrip_app_space (s : string) : rstrip (s +:+ " ") = rstrip s.
Proof.
  induction s as [|c s IH]; [reflexivity|].
  simpl. rewrite IH. reflexivity.
Qed.

Lemma strip_app_space (s : string) : strip (s +:+ " ") = strip s.
Proof.
  unfold strip. induction s as [|c s IH]; [reflexivity|].
  simpl. destruct (is_space c); [exact IH|].
  change (String c (s +:+ " ")) with (String c s +:+ " ").
  apply rstrip_app_space.
Qed.

Lemma from_api_response_name (profile : raw_record) (r : LinkedInProfile) :
  from_api_response profile = Return r ->
  name r = VStr (strip (str (dict_get profile "firstName" (VStr "")) +:+ " " +:+
                        str (dict_get profile "lastName" (VStr "")))).
Proof.
  unfold from_api_response.
  destruct (_get_position profile); simpl; [|discriminate].
  destruct (_get_company profile); simpl; [|discriminate].
  destruct (_get_education profile); simpl; [|discriminate].
  intros [= <-]. reflexivity.
Qed.

(** X6: the [name] of a normalised record is a string without leading or
    trailing whitespace.  A record with no [lastName] gets the stripped
    first name, one with no [firstName] the stripped last name (the
    separating space does not survive), and one with neither gets [""]. *)
Theorem name_is_stripped (profile : raw_record) (r : LinkedInProfile) :
  from_api_response profile = Return r ->
  exists s,
    name r = VStr s /\
    starts_with_space s = false /\ ends_with_space s = false /\
    (dict_lookup "lastName" profile = None ->
     s = strip (str (dict_get profile "firstName" (VStr "")))) /\
    (dict_lookup "firstName" profile = None ->
     s = strip (str (dict_get profile "lastName" (VStr "")))) /\
    (dict_lookup "firstName" profile = None -> dict_lookup "lastName" profile = None ->
     s = "").
Proof.
  intros Hr. apply from_api_response_name in Hr.
  eexists. split; [exact Hr|].
  split; [apply rstrip_keeps_start, lstrip_no_leading_space|].
  split; [apply rstrip_no_trailing_space|].
  split; [|split].
  - intros Hl. rewrite (dict_get_absent "lastName") by exact Hl.
    cbn [str]. change (" " +:+ "") with " ". apply strip_app_space.
  - intros Hf. rewrite (dict_get_absent "firstName") by exact Hf. reflexivity.
  - intros Hf Hl.
    rewrite (dict_get_absent "firstName"), (dict_get_absent "lastName") by assumption.
    reflexivity.
Qed.

Lemma name_is_stripped_example :
  exists s,
    from_api_response [("firstName", VStr "  Ada "); ("occupation", VStr "Analyst")] =
      Return {| name := VStr s; position := VStr "Analyst"; company := VStr "";
                location := VStr ""; connections := VInt 0; education := VStr "" |} /\
    s = "Ada".
Proof.
  destruct (name_is_stripped
              [("firstName", VStr "  Ada "); ("occupation", VStr "Analyst")]
              {| name := VStr "Ada"; position := VStr "Analyst"; company := VStr "";
                 location := VStr ""; connections := VInt 0; education := VStr "" |})
    as (s & Hs & _ & _ & Hlast & _).
  - reflexivity.
  - exists s. rewrite (Hlast eq_refl). split; reflexivity.
Defined.

Lemma getter_returns_iff (k f : string) (other : value) (profile : raw_record) :
  (exists x,
     match dict_lookup k profile with
     | Some v =>
         if truthy v then try! first := getitem_0 v in method_get first f (VStr "")
         else Return other
     | None => Return other
     end = Return x) <->
  digestible k profile.
Proof.
  unfold digestible.
  destruct (dict_lookup k profile) as [v|]; [|split; eauto].
  destruct (truthy v) eqn:Ht.
  - split.
    + intros (x & Hx). right.
      destruct v as [| | | |s|l|d]; simpl in Hx; try discriminate.
      * destruct s; discriminate.
      * destruct l as [|first rest]; [discriminate|].
        destruct first; simpl in Hx; try discriminate. eauto.
    + intros [Hf | (first & rest & ->)]; [discriminate|].
      simpl. eauto.
  - split; eauto.
Qed.

(** X7: [from_api_response] returns a record exactly when ["positions"]
    and ["educations"] are each absent, falsy, or a list whose first
    element is a JSON object; on any other record it raises. *)
Theorem from_api_response_returns_iff (profile : raw_record) :
  (exists r, from_api_response profile = Return r) <->
  digestible "positions" profile /\ digestible "educations" profile.
Proof.
  split.
  - intros (r & Hr). unfold from_api_response in Hr.
    destruct (_get_position profile) as [p|] eqn:Hp; [|discriminate].
    destruct (_get_company profile) as [c|] eqn:Hc; [|discriminate].
    destruct (_get_education profile) as [e|] eqn:He; [|discriminate].
    rewrite _get_position_shape in Hp. rewrite _get_education_shape in He.
    split.
    + eapply getter_returns_iff. eauto.
    + eapply getter_returns_iff. eauto.
  - intros [Hpos Hedu].
    destruct (proj2 (getter_returns_iff "positions" "title"
                       (dict_get profile "occupation" (VStr "")) profile) Hpos) as (p & Hp).
    destruct (proj2 (getter_returns_iff "positions" "companyName" (VStr "") profile) Hpos)
      as (c & Hc).
    destruct (proj2 (getter_returns_iff "educations" "schoolName" (VStr "") profile) Hedu)
      as (e & He).
    rewrite <- _get_position_shape in Hp. rewrite <- _get_company_shape in Hc.
    rewrite <- _get_education_shape in He.
    unfold from_api_response. rewrite Hp, Hc, He. simpl. eauto.
Qed.

Lemma from_api_response_returns_iff_example :
  (exists r,
     from_api_response
       [("positions", VList [VDict [("title", VStr "Engineer")]; VStr "old"]);
        ("educations", VList [])] = Return r) /\
  ~ (exists r, from_api_response [("educations", VStr "MIT")] = Return r).
Proof.
  split.
  - apply (from_api_response_returns_iff
             [("positions", VList [VDict [("title", VStr "Engineer")]; VStr "old"]);
              ("educations", VList [])]).
    split.
    + right. eexists. eexists. reflexivity.
    + left. reflexivity.
  - intros H.
    apply (from_api_response_returns_iff [("educations", VStr "MIT")]) in H.
    destruct H as [_ [H | (first & rest & H)]]; discriminate.
Defined.

(* ===================================================================== *)
(** * Further properties of the LinkedIn pipeline *)
(* ===================================================================== *)

(** X8: [format_profiles], the loop of [get_formatted_results], returns a
    list exactly when every dataset item is a JSON object that the
    normaliser accepts; the list then has one JSON object per item, in the
    order of the items.  One item that is rejected makes the whole call
    raise. *)
Theorem format_profiles_all_or_nothing (profiles formatted : list value) :
  format_profiles profiles = Return formatted <->
  Forall2 formats_to profiles formatted.
Proof.
  revert formatted. induction profiles as [|raw rest IH]; intros formatted.
  - simpl. split.
    + intros [= <-]. constructor.
    + intros H. inversion H. reflexivity.
  - simpl. split.
    + intros H.
      destruct raw as [| | | | | |d]; try discriminate.
      destruct (from_api_response d) as [r|] eqn:Hr; [|discriminate].
      simpl in H.
      destruct (format_profiles rest) as [rest'|] eqn:Hrest; [|discriminate].
      simpl in H. injection H as <-.
      constructor.
      * exists d, r. auto.
      * apply IH. reflexivity.
    + intros H. inversion H as [|? f ? rest' (d & r & -> & Hr & ->) Hrest]; subst.
      rewrite Hr. simpl.
      apply IH in Hrest. rewrite Hrest. reflexivity.
Qed.

Lemma format_profiles_all_or_nothing_example :
  Forall2 formats_to [ada; alan]
    [VDict [("name", VStr "Ada Lovelace"); ("position", VStr ""); ("company", VStr "");
            ("location", VStr ""); ("connections", VInt 0); ("education", VStr "")];
     VDict [("name", VStr "Alan Turing"); ("position", VStr ""); ("company", VStr "");
            ("location", VStr ""); ("connections", VInt 0); ("education", VStr "")]] /\
  ~ (exists formatted, Forall2 formats_to [ada; VStr "oops"] formatted).
Proof.
  split.
  - apply (format_profiles_all_or_nothing [ada; alan]). reflexivity.
  - intros (formatted & H).
    apply (format_profiles_all_or_nothing [ada; VStr "oops"]) in H. discriminate H.
Defined.

Lemma get_profiles_page_requests (env : Env) (self : LinkedinWebScraper)
    (offset limit : Z) (t : trace) :
  page_requests (snd (get_profiles_page env self offset limit t)) =
  page_requests t ++
  match dataset_client self with
  | Some _ => [(offset, limit)]
  | None => []
  end.
Proof.
  unfold get_profiles_page, catch, Linkedin.list_items.
  destruct (dataset_client self) as [ds|].
  - destruct (list_items_api env t ds offset limit) as [page|e]; simpl.
    + rewrite page_requests_app. reflexivity.
    + destruct (is_ApifyApiError e); simpl.
      * unfold bind, logging_error, emit, ret. simpl.
        rewrite !page_requests_app. simpl. rewrite app_nil_r. reflexivity.
      * rewrite page_requests_app. reflexivity.
  - simpl. rewrite app_nil_r. reflexivity.
Qed.

(** The offsets [offset], [offset + size], ... of [n] consecutive pages. *)
Lemma get_all_profiles_loop_requests (env : Env) (self : LinkedinWebScraper) (fuel : nat) :
  forall (all_profiles : list value) (offset : Z) (t : trace)
         (o : outcome (list value)) (t' : trace),
    get_all_profiles_loop fuel env self all_profiles offset t = Some (o, t') ->
    exists n : nat,
      (n <= fuel)%nat /\
      page_requests t' =
      page_requests t ++
      map (fun i : nat => (offset + Z.of_nat i * Linkedin.page_size self,
                           Linkedin.page_size self)) (seq 0 n).
Proof.
  induction fuel as [|fuel IH]; intros acc offset t o t' H; [discriminate|].
  simpl in H.
  destruct (dataset_client self) as [ds|] eqn:Hds.
  - pose proof (get_profiles_page_requests env self offset (Linkedin.page_size self) t)
      as Hreq.
    rewrite Hds in Hreq.
    destruct (get_profiles_page env self offset (Linkedin.page_size self) t)
      as [[page|e] t1]; simpl in Hreq.
    + destruct page as [|x page].
      * injection H as <- <-.
        exists 1%nat. split; [lia|]. rewrite Hreq. simpl.
        rewrite Z.add_0_r. reflexivity.
      * apply IH in H. destruct H as (n & Hn & H).
        rewrite page_requests_app in H. simpl in H. rewrite app_nil_r in H.
        exists (S n). split; [lia|]. rewrite H, Hreq, <- app_assoc.
        f_equal. cbn [seq map app]. rewrite Z.add_0_r. f_equal.
        rewrite <- seq_shift, map_map. apply map_ext. intros i. f_equal.
        rewrite Nat2Z.inj_succ. ring.
    + injection H as <- <-.
      exists 1%nat. split; [lia|]. rewrite Hreq. simpl. rewrite Z.add_0_r. reflexivity.
  - rewrite get_profiles_page_unavailable in H by exact Hds.
    injection H as <- <-.
    exists 0%nat. split; [lia|]. simpl. rewrite app_nil_r. reflexivity.
Qed.

(** X9: whatever the dataset answers, [get_all_profiles] asks for the
    pages at offsets [0], [page_size], [2 * page_size], ... in that order,
    always with [limit = page_size]: no offset is asked twice and none is
    skipped. *)
Theorem get_all_profiles_requests_consecutive_pages (env : Env) (self : LinkedinWebScraper)
    (fuel : nat) (t t' : trace) (o : outcome (list value)) :
  get_all_profiles fuel env self t = Some (o, t') ->
  exists n : nat,
    (n <= fuel)%nat /\
    page_requests t' =
    page_requests t ++
    map (fun i : nat => (Z.of_nat i * Linkedin.page_size self, Linkedin.page_size self))
        (seq 0 n).
Proof.
  intros H. apply get_all_profiles_loop_requests in H.
  destruct H as (n & Hn & H). exists n. split; [exact Hn|].
  rewrite H. f_equal.
Qed.

Lemma get_all_profiles_requests_consecutive_pages_example :
  exists t',
    get_all_profiles 4 (env_dataset [ada; alan; grace]) (scraper_on (VStr "ds-1") 2) [] =
      Some (Return [ada; alan; grace], t') /\
    page_requests t' = [(0, 2); (2, 2); (4, 2)].
Proof.
  eexists. split; [reflexivity|].
  destruct (get_all_profiles_requests_consecutive_pages (env_dataset [ada; alan; grace])
              (scraper_on (VStr "ds-1") 2) 4 []
              [EvListItems (VStr "ds-1") 0 2; EvLog INFO "Fetched 2 profiles. Total: 2";
               EvListItems (VStr "ds-1") 2 2; EvLog INFO "Fetched 1 profiles. Total: 3";
               EvListItems (VStr "ds-1") 4 2]
              (Return [ada; alan; grace]) eq_refl) as (n & _ & Hn).
  reflexivity.
Defined.

(** X10: a page read that fails with anything but [ApifyApiError] is not
    handled: the exception leaves [get_all_profiles] at once, the items of
    the earlier pages are not returned, and nothing is logged. *)
Theorem unhandled_page_error_escapes (env : Env) (self : LinkedinWebScraper) (ds : value)
    (fuel : nat) (all_profiles : list value) (offset : Z) (t : trace) (e : exn) :
  dataset_client self = Some ds ->
  list_items_api env t ds offset (Linkedin.page_size self) = Raise e ->
  is_ApifyApiError e = false ->
  get_all_profiles_loop (S fuel) env self all_profiles offset t =
  Some (Raise e, t ++ [EvListItems ds offset (Linkedin.page_size self)]).
Proof.
  intros Hds Hfail He. simpl.
  rewrite (get_profiles_page_other_error env self ds offset _ t e Hds Hfail He).
  reflexivity.
Qed.

Lemma unhandled_page_error_escapes_example :
  get_all_profiles_loop 1 (env_timeout [ada; alan; grace] 1) (scraper_on (VStr "ds-1") 2)
    [ada; alan] 2
    [EvListItems (VStr "ds-1") 0 2; EvLog INFO "Fetched 2 profiles. Total: 2"] =
  Some (Raise (OtherException "ReadTimeout"),
        [EvListItems (VStr "ds-1") 0 2; EvLog INFO "Fetched 2 profiles. Total: 2";
         EvListItems (VStr "ds-1") 2 2]).
Proof.
  apply (unhandled_page_error_escapes (env_timeout [ada; alan; grace] 1)
           (scraper_on (VStr "ds-1") 2) (VStr "ds-1") 0 [ada; alan] 2
           [EvListItems (VStr "ds-1") 0 2; EvLog INFO "Fetched 2 profiles. Total: 2"]
           (OtherException "ReadTimeout")); reflexivity.
Defined.

(* ===================================================================== *)
(** * Properties of the LinkedIn CSV export *)
(* ===================================================================== *)

Lemma files_written_app (t1 t2 : trace) :
  files_written (t1 ++ t2) = files_written t1 ++ files_written t2.
Proof.
  induction t1 as [|ev t1 IH]; simpl; [reflexivity|].
  destruct ev; simpl; rewrite IH; reflexivity.
Qed.






(** The [with] statement either fails at [open], leaving the trace as it
    was, or adds the one event of the file it opened. *)
Lemma write_csv_cases (disk : Disk) (filename : string) (profiles : list LinkedInProfile)
    (t : trace) :
  (exists e, disk_open disk t filename = Raise e /\
             write_csv disk filename profiles t = (Raise e, t)) \/
  (disk_open disk t filename = Return tt /\
   exists o written,
     write_csv disk filename profiles t = (o, t ++ [EvWriteFile filename written])).
Proof.
  unfold write_csv.
  destruct (disk_open disk t filename) as [[]|e]; [right|left; eauto].
  split; [reflexivity|].
  destruct (match Csv.DictWriter_writeheader Linkedin.fieldnames with
            | Return header =>
                match disk_write disk filename "" header with
                | Return _ => write_rows disk filename profiles header
                | Raise e => ("", Raise e)
                end
            | Raise e => ("", Raise e)
            end) as [written result].
  destruct (disk_close disk filename written); eauto.
Qed.



(** A path whose directory is missing: the call raises, as the source does. *)
Lemma linkedin_save_results_unopenable :
  Linkedin.save_results 3 (env_dataset [ada; alan]) disk_no_directory
    (scraper_on (VStr "ds-1") 100) "missing_dir/out.csv" [] =
  Some (Raise (FileNotFoundError
                 "[Errno 2] No such file or directory: 'missing_dir/out.csv'"),
        [EvListItems (VStr "ds-1") 0 100; EvLog INFO "Fetched 2 profiles. Total: 2";
         EvListItems (VStr "ds-1") 100 100;
         EvLog ERROR
           "Failed to save profiles: [Errno 2] No such file or directory: 'missing_dir/out.csv'"]).
Proof. reflexivity. Qed.

(** A write that fails after the header: the call raises and leaves the
    file behind with the header only. *)
Lemma linkedin_save_results_partial_file :
  Linkedin.save_results 3 (env_dataset [ada; alan]) disk_full
    (scraper_on (VStr "ds-1") 100) "linkedin_profiles.csv" [] =
  Some (Raise (OtherException "[Errno 28] No space left on device"),
        [EvListItems (VStr "ds-1") 0 100; EvLog INFO "Fetched 2 profiles. Total: 2";
         EvListItems (VStr "ds-1") 100 100;
         EvWriteFile "linkedin_profiles.csv"
           ("name,position,company,location,connections,education" +:+ Csv.CRLF);
         EvLog ERROR "Failed to save profiles: [Errno 28] No space left on device"]).
Proof. reflexivity. Qed.

Lemma get_all_profiles_loop_files (env : Env) (self : LinkedinWebScraper) (fuel : nat) :
  forall (all_profiles : list value) (offset : Z) (t : trace)
         (o : outcome (list value)) (t' : trace),
    get_all_profiles_loop fuel env self all_profiles offset t = Some (o, t') ->
    files_written t' = files_written t.
Proof.
  assert (Happ : forall a b, files_written (a ++ b) = files_written a ++ files_written b).
  { intros a b. induction a as [|ev a IH]; simpl; [reflexivity|].
    destruct ev; simpl; rewrite IH; reflexivity. }
  assert (Hpage : forall offset limit t,
             files_written (snd (get_profiles_page env self offset limit t)) =
             files_written t).
  { intros offset limit t. unfold get_profiles_page, catch, Linkedin.list_items.
    destruct (dataset_client self) as [ds|]; [|reflexivity].
    destruct (list_items_api env t ds offset limit) as [page|e]; simpl.
    - rewrite Happ. simpl. apply app_nil_r.
    - destruct (is_ApifyApiError e); simpl.
      + unfold bind, logging_error, emit, ret. simpl.
        rewrite !Happ. simpl. rewrite !app_nil_r. reflexivity.
      + rewrite Happ. simpl. apply app_nil_r. }
  induction fuel as [|fuel IH]; intros acc offset t o t' H; [discriminate|].
  simpl in H.
  pose proof (Hpage offset (Linkedin.page_size self) t) as Hp.
  destruct (get_profiles_page env self offset (Linkedin.page_size self) t)
    as [[page|e] t1]; simpl in Hp.
  - destruct page as [|x page].
    + injection H as <- <-. exact Hp.
    + apply IH in H. rewrite H, Happ. simpl. rewrite app_nil_r. exact Hp.
  - injection H as <- <-. exact Hp.
Qed.

(** X12: whatever fails inside [save_results] (the dataset read, the
    normalising of an item, [open], a write, [close]) is logged as
    [Failed to save profiles: ...], with the text of the exception, as the
    last thing the call does, and is raised again.  The call touches no
    file but [filename], and that one at most once; a failed call leaves a
    file behind only when the dataset was read, every item normalised and
    [open] succeeded.  A call that returns has written [filename] once. *)
Theorem linkedin_save_results_failure_is_logged (fuel : nat) (env : Env) (disk : Disk)
    (self : LinkedinWebScraper) (filename : string) (t t' : trace) (o : outcome unit) :
  Linkedin.save_results fuel env disk self filename t = Some (o, t') ->
  match o with
  | Raise e =>
      (exists t0, t' = t0 ++ [EvLog ERROR ("Failed to save profiles: " +:+ exn_str e)]) /\
      (files_written t' = files_written t \/
       files_written t' = files_written t ++ [filename]) /\
      (files_written t' = files_written t ++ [filename] ->
       exists all_profiles profiles t1,
         get_all_profiles fuel env self t = Some (Return all_profiles, t1) /\
         normalise_all all_profiles = Return profiles /\
         disk_open disk t1 filename = Return tt)
  | Return _ => files_written t' = files_written t ++ [filename]
  end.
Proof.
  assert (Hne : forall l : list string, l = l ++ [filename] -> False).
  { intros l H. apply (f_equal length) in H. rewrite length_app in H. simpl in H. lia. }
  unfold Linkedin.save_results.
  destruct (get_all_profiles fuel env self t) as [[[all|e] t1]|] eqn:Hall;
    [| |discriminate].
  - pose proof Hall as Hfiles. unfold get_all_profiles in Hfiles.
    apply get_all_profiles_loop_files in Hfiles.
    destruct (normalise_all all) as [profiles|e] eqn:Hnorm.
    + destruct (write_csv_cases disk filename profiles t1)
        as [(e & Hopen & ->) | (Hopen & o' & written & ->)].
      * intros [= <- <-].
        assert (Hsame : files_written
                          (t1 ++ [EvLog ERROR ("Failed to save profiles: " +:+ exn_str e)]) =
                        files_written t).
        { rewrite files_written_app, Hfiles. simpl. apply app_nil_r. }
        split; [eauto|]. split; [left; exact Hsame|].
        intros H. rewrite Hsame in H. exfalso. exact (Hne _ H).
      * assert (Hone : forall ev, files_written [ev] = [] ->
                   files_written ((t1 ++ [EvWriteFile filename written]) ++ [ev]) =
                   files_written t ++ [filename]).
        { intros ev Hev. rewrite !files_written_app, Hfiles, Hev. simpl.
          apply app_nil_r. }
        destruct o' as [[]|e]; intros [= <- <-].
        -- apply Hone. reflexivity.
        -- split; [eauto|]. split; [right; apply Hone; reflexivity|].
           intros _. exists all, profiles, t1. auto.
    + intros [= <- <-].
      assert (Hsame : files_written
                        (t1 ++ [EvLog ERROR ("Failed to save profiles: " +:+ exn_str e)]) =
                      files_written t).
      { rewrite files_written_app, Hfiles. simpl. apply app_nil_r. }
      split; [eauto|]. split; [left; exact Hsame|].
      intros H. rewrite Hsame in H. exfalso. exact (Hne _ H).
  - pose proof Hall as Hfiles. unfold get_all_profiles in Hfiles.
    apply get_all_profiles_loop_files in Hfiles.
    intros [= <- <-].
    assert (Hsame : files_written
                      (t1 ++ [EvLog ERROR ("Failed to save profiles: " +:+ exn_str e)]) =
                    files_written t).
    { rewrite files_written_app, Hfiles. simpl. apply app_nil_r. }
    split; [eauto|]. split; [left; exact Hsame|].
    intros H. rewrite Hsame in H. exfalso. exact (Hne _ H).
Qed.

Lemma linkedin_save_results_failure_is_logged_example :
  (exists t0,
     [EvListItems (VStr "ds-1") 0 100; EvLog INFO "Fetched 2 profiles. Total: 2";
      EvListItems (VStr "ds-1") 100 100;
      EvWriteFile "linkedin_profiles.csv"
        ("name,position,company,location,connections,education" +:+ Csv.CRLF);
      EvLog ERROR "Failed to save profiles: [Errno 28] No space left on device"] =
     t0 ++ [EvLog ERROR "Failed to save profiles: [Errno 28] No space left on device"]) /\
  disk_open disk_full
    [EvListItems (VStr "ds-1") 0 100; EvLog INFO "Fetched 2 profiles. Total: 2";
     EvListItems (VStr "ds-1") 100 100] "linkedin_profiles.csv" = Return tt.
Proof.
  destruct (linkedin_save_results_failure_is_logged 3 (env_dataset [ada; alan]) disk_full
              (scraper_on (VStr "ds-1") 100) "linkedin_profiles.csv" []
              [EvListItems (VStr "ds-1") 0 100; EvLog INFO "Fetched 2 profiles. Total: 2";
               EvListItems (VStr "ds-1") 100 100;
               EvWriteFile "linkedin_profiles.csv"
                 ("name,position,company,location,connections,education" +:+ Csv.CRLF);
               EvLog ERROR "Failed to save profiles: [Errno 28] No space left on device"]
              (Raise (OtherException "[Errno 28] No space left on device")) eq_refl)
    as (Hlog & _ & Hleft).
  split; [exact Hlog|]. reflexivity.
Defined.

(* ===================================================================== *)
(** * Further properties of the GitHub fetcher *)
(* ===================================================================== *)

Lemma http_requests_app (t1 t2 : trace) :
  http_requests (t1 ++ t2) = http_requests t1 ++ http_requests t2.
Proof.
  induction t1 as [|ev t1 IH]; simpl; [reflexivity|].
  destruct ev; simpl; rewrite IH; reflexivity.
Qed.

Lemma raise_for_status_cases (r : Response) :
  (400 <= status_code r < 600 /\
   exists e, GitHub.raise_for_status r = Raise e /\ GitHub.is_RequestException e = true) \/
  (~ 400 <= status_code r < 600 /\ GitHub.raise_for_status r = Return tt).
Proof.
  unfold GitHub.raise_for_status.
  destruct (400 <=? status_code r) eqn:E1; destruct (status_code r <? 500) eqn:E2;
    destruct (500 <=? status_code r) eqn:E3; destruct (status_code r <? 600) eqn:E4;
    simpl;
    try (left; split; [lia|eexists; split; reflexivity]);
    right; (split; [lia|reflexivity]).
Qed.

Lemma failure_log_not_request (login : string) (r : Response) (e : exn) :
  http_requests [failure_log login r e] = [].
Proof.
  unfold failure_log.
  destruct (status_code r =? 404); [reflexivity|].
  destruct (status_code r =? 403); reflexivity.
Qed.

(** One identifier whose request is answered: the profile of the answer,
    if it has one, is appended, and the loop goes on. *)
Lemma fetch_step_answered (env : Env) (login : string) (rest : list string)
    (response : option Response) (acc : list GitHubProfile) (t : trace) (r : Response) :
  requests_get env t (url_of login) = Return r ->
  answer_ok r ->
  exists evs,
    GitHub.fetch_profiles_loop env (login :: rest) response acc t =
    GitHub.fetch_profiles_loop env rest (Some r)
      (acc ++ match lookup_profile r with Some p => [p] | None => [] end)
      (t ++ EvHttpGet (url_of login) :: evs) /\
    http_requests evs = [].
Proof.
  intros Hget Hok.
  cbn [GitHub.fetch_profiles_loop]. unfold GitHub.http_get.
  change (GitHub.BASE_URL +:+ "/" +:+ login) with (url_of login). rewrite Hget.
  unfold bind at 1, catch, GitHub.after_get, bind at 1, lift, lookup_profile.
  destruct (raise_for_status_cases r) as [(Hst & e & He & Hreq) | (Hst & He)]; rewrite He.
  - rewrite Hreq. unfold bind at 1. rewrite on_request_exception_bound.
    unfold ret. rewrite app_nil_r, <- app_assoc.
    eexists. split; [reflexivity|]. apply failure_log_not_request.
  - destruct Hok as [Hbad | [(msg & Hjson) | (data & p & Hjson & Hp)]]; [contradiction| |].
    + unfold bind at 1. rewrite Hjson. cbn [GitHub.is_RequestException].
      unfold bind at 1. rewrite on_request_exception_bound.
      unfold ret. rewrite app_nil_r, <- app_assoc.
      eexists. split; [reflexivity|]. apply failure_log_not_request.
    + unfold bind at 1. rewrite Hjson. unfold bind at 1. rewrite Hp.
      unfold bind, logging_info, emit, ret. rewrite <- app_assoc.
      eexists. split; [reflexivity|]. reflexivity.
Qed.

(** X13: when every request is answered and every answer is either an
    error status, an undecodable body, or a JSON value with the required
    keys, [fetch_profiles] does not raise; it keeps exactly the profiles of
    the successful lookups, in the order of the identifiers, and it sends
    one request per identifier, in that order. *)
Theorem fetch_profiles_keeps_successful_lookups (env : Env) (api : string -> Response)
    (usernames : list string) (response : option Response) (acc : list GitHubProfile)
    (t : trace) :
  (forall t url, requests_get env t url = Return (api url)) ->
  Forall (fun login => answer_ok (api (url_of login))) usernames ->
  exists t',
    GitHub.fetch_profiles_loop env usernames response acc t =
      (Return (acc ++ omap (fun login => lookup_profile (api (url_of login))) usernames),
       t') /\
    http_requests t' = http_requests t ++ map url_of usernames.
Proof.
  intros Hapi Hok. revert response acc t.
  induction Hok as [|login rest Hlogin Hrest IH]; intros response acc t.
  - exists t. simpl. rewrite !app_nil_r. auto.
  - destruct (fetch_step_answered env login rest response acc t _ (Hapi t (url_of login))
                Hlogin) as (evs & Hstep & Hevs).
    destruct (IH (Some (api (url_of login)))
                 (acc ++ match lookup_profile (api (url_of login)) with
                         | Some p => [p] | None => [] end)
                 (t ++ EvHttpGet (url_of login) :: evs)) as (t' & Hrun & Hreq).
    exists t'. split.
    + rewrite Hstep, Hrun. f_equal. f_equal. rewrite <- app_assoc. f_equal.
      cbn [omap list_omap].
      destruct (lookup_profile (api (url_of login))); reflexivity.
    + rewrite Hreq, http_requests_app. cbn [http_requests map]. rewrite Hevs.
      rewrite <- app_assoc. reflexivity.
Qed.

Lemma fetch_profiles_keeps_successful_lookups_example :
  exists t',
    GitHub.fetch_profiles_loop (env_github four_users)
      ["wincent"; "jericho1050"; "brianyu2"; "dmalan"; "torvalds"] None [] [] =
      (Return (omap (fun login => lookup_profile (find_user four_users (url_of login)))
                    ["wincent"; "jericho1050"; "brianyu2"; "dmalan"; "torvalds"]), t') /\
    http_requests t' =
      map url_of ["wincent"; "jericho1050"; "brianyu2"; "dmalan"; "torvalds"].
Proof.
  apply (fetch_profiles_keeps_successful_lookups (env_github four_users)
           (find_user four_users)
           ["wincent"; "jericho1050"; "brianyu2"; "dmalan"; "torvalds"] None [] []).
  - reflexivity.
  - repeat (constructor;
            [first [ right; right; eexists; eexists; split; reflexivity
                   | left; simpl; lia ]|]).
    constructor.
Defined.

Lemma later_request_failure_is_skipped_example :
  GitHub.fetch_profiles_loop env_drops_after_first ["wincent"]
    (Some (not_found (url_of "ghost"))) []
    [EvHttpGet (url_of "ghost"); EvLog ERROR "User ghost not found"] =
  (Return [],
   [EvHttpGet (url_of "ghost"); EvLog ERROR "User ghost not found";
    EvHttpGet (url_of "wincent"); EvLog ERROR "User wincent not found"]).
Proof.
  rewrite (later_request_failure_is_skipped env_drops_after_first "wincent" []
             (not_found (url_of "ghost")) []
             [EvHttpGet (url_of "ghost"); EvLog ERROR "User ghost not found"]
             "Connection refused" eq_refl).
  reflexivity.
Defined.

(** X15: an answer with a success status whose JSON object lacks one of
    [login], [public_repos], [followers] is not a skipped lookup: the
    [KeyError] for the first missing key leaves [fetch_profiles], the
    profiles fetched so far are not stored, and the remaining identifiers
    are not requested. *)
Theorem missing_required_key_raises (env : Env) (login : string) (rest : list string)
    (response : option Response) (acc : list GitHubProfile) (t : trace) (r : Response)
    (d : list (string * value)) :
  requests_get env t (url_of login) = Return r ->
  GitHub.raise_for_status r = Return tt ->
  json r = Return (VDict d) ->
  (exists k, k ∈ required_keys /\ dict_lookup k d = None) ->
  exists k,
    k ∈ required_keys /\ dict_lookup k d = None /\
    GitHub.fetch_profiles_loop env (login :: rest) response acc t =
    (Raise (KeyError (repr_str k)), t ++ [EvHttpGet (url_of login)]).
Proof.
  intros Hget Hstatus Hjson (k0 & Hk0 & Hmissing).
  assert (Hp : exists k, k ∈ required_keys /\ dict_lookup k d = None /\
                         GitHub.make_profile (VDict d) = Raise (KeyError (repr_str k))).
  { unfold GitHub.make_profile. cbn [getitem_str method_get obind].
    destruct (dict_lookup "login" d) eqn:E1.
    - cbn [obind].
      destruct (dict_lookup "public_repos" d) eqn:E2.
      + cbn [obind].
        destruct (dict_lookup "followers" d) eqn:E3.
        * exfalso. unfold required_keys in Hk0.
          repeat (apply elem_of_cons in Hk0; destruct Hk0 as [-> | Hk0]; [congruence|]).
          inversion Hk0.
        * exists "followers". split; [repeat constructor|]. auto.
      + exists "public_repos". split; [repeat constructor|]. auto.
    - exists "login". split; [repeat constructor|]. auto. }
  destruct Hp as (k & Hk & Hnone & Hp).
  exists k. split; [exact Hk|]. split; [exact Hnone|].
  cbn [GitHub.fetch_profiles_loop]. unfold GitHub.http_get.
  change (GitHub.BASE_URL +:+ "/" +:+ login) with (url_of login). rewrite Hget.
  unfold bind at 1, catch, GitHub.after_get, bind at 1, lift.
  rewrite Hstatus. unfold bind at 1. rewrite Hjson.
  unfold bind at 1. rewrite Hp. reflexivity.
Qed.

Lemma missing_required_key_raises_example :
  exists k,
    GitHub.fetch_profiles_loop
      (env_github [("wincent",
                    {| status_code := 200; reason := "OK"; url := url_of "wincent";
                       json := Return (VDict [("login", VStr "wincent");
                                              ("followers", VInt 1000)]) |})])
      ["wincent"; "torvalds"] None [] [] =
    (Raise (KeyError (repr_str k)), [EvHttpGet (url_of "wincent")]) /\
    k = "public_repos".
Proof.
  destruct (missing_required_key_raises
              (env_github [("wincent",
                            {| status_code := 200; reason := "OK"; url := url_of "wincent";
                               json := Return (VDict [("login", VStr "wincent");
                                                      ("followers", VInt 1000)]) |})])
              "wincent" ["torvalds"] None [] []
              {| status_code := 200; reason := "OK"; url := url_of "wincent";
                 json := Return (VDict [("login", VStr "wincent");
                                        ("followers", VInt 1000)]) |}
              [("login", VStr "wincent"); ("followers", VInt 1000)])
    as (k & Hk & Hnone & Hrun); try reflexivity.
  - exists "public_repos". split; [repeat constructor|reflexivity].
  - exists k. split; [exact Hrun|].
    unfold required_keys in Hk.
    repeat (apply elem_of_cons in Hk; destruct Hk as [-> | Hk];
            [first [reflexivity | discriminate Hnone]|]).
    inversion Hk.
Defined.

(* ===================================================================== *)
(** * Properties of the script *)
(* ===================================================================== *)

(** X16: when the LinkedIn scraper comes out of [__init__] without a
    dataset client, the script ends in its second statement:
    [save_results] logs [Failed to save profiles: ...] and raises the
    [AttributeError] again.  No file is written, nothing is printed, and the
    GitHub pipeline is never started. *)
Theorem script_stops_without_dataset (fuel : nat) (env : Env) (disk : Disk)
    (t t1 : trace) (self : LinkedinWebScraper) :
  Linkedin.__init__ env "linkedin_config.json" 100 t = (Return self, t1) ->
  dataset_client self = None ->
  Main.script (S fuel) env disk t =
    Some (Raise (AttributeError "'NoneType' object has no attribute 'list_items'"),
          t1 ++ [EvLog ERROR
                   "Failed to save profiles: 'NoneType' object has no attribute 'list_items'"]) /\
  http_requests
    (t1 ++ [EvLog ERROR
              "Failed to save profiles: 'NoneType' object has no attribute 'list_items'"]) =
    http_requests t1 /\
  files_written
    (t1 ++ [EvLog ERROR
              "Failed to save profiles: 'NoneType' object has no attribute 'list_items'"]) =
    files_written t1.
Proof.
  intros Hinit Hds. split; [|split].
  - unfold Main.script. rewrite Hinit.
    unfold Linkedin.save_results, get_all_profiles. cbn [get_all_profiles_loop].
    rewrite get_profiles_page_unavailable by exact Hds. reflexivity.
  - rewrite http_requests_app. simpl. apply app_nil_r.
  - rewrite files_written_app. simpl. apply app_nil_r.
Qed.

Lemma script_stops_without_dataset_example :
  Main.script 1 env_rate_limited disk_ok [] =
  Some (Raise (AttributeError "'NoneType' object has no attribute 'list_items'"),
        [EvActorCall (VStr "curious_coder/linkedin-profile-scraper")
           (VDict [("urls", VList []); ("cookie", VStr "li_at=secret")]);
         EvPrint "Error while running actor: Too Many Requests (status 429)";
         EvPrint "Detected possible rate limit or scraping block.";
         EvLog ERROR
           "Failed to save profiles: 'NoneType' object has no attribute 'list_items'"]).
Proof.
  apply (script_stops_without_dataset 0 env_rate_limited disk_ok []
           [EvActorCall (VStr "curious_coder/linkedin-profile-scraper")
              (VDict [("urls", VList []); ("cookie", VStr "li_at=secret")]);
            EvPrint "Error while running actor: Too Many Requests (status 429)";
            EvPrint "Detected possible rate limit or scraping block."]
           {| Linkedin.page_size := 100; actor_call := VNone; dataset_client := None |});
    reflexivity.
Defined.

(** A run in which everything answers: both files are written, the LinkedIn
    one first, and the dataset is paged through twice, once for the file
    and once for the printed JSON. *)
Lemma script_full_run :
  exists t',
    Main.script 3 env_online disk_ok [] = Some (Return tt, t') /\
    files_written t' = ["linkedin_profiles.csv"; "github_profile.csv"] /\
    page_requests t' = [(0, 100); (100, 100); (0, 100); (100, 100)] /\
    http_requests t' =
      map url_of ["wincent"; "jericho1050"; "brianyu2"; "dmalan"; "torvalds"].
Proof.
  eexists. split; [reflexivity|]. simpl. auto.
Qed.

(** X17: [save_results] and [get_formatted_results] each page through the
    whole dataset on their own: called one after the other, as the script
    does, they read every page twice. *)
Theorem linkedin_pipeline_reads_dataset_twice (env : Env) (disk : Disk)
    (self : LinkedinWebScraper) (ds : value) (items : list value) (fuel : nat)
    (filename : string) (t : trace) :
  0 < Linkedin.page_size self ->
  dataset_client self = Some ds ->
  serves env ds items ->
  (length items < fuel)%nat ->
  exists o1 t1 o2 t2,
    Linkedin.save_results fuel env disk self filename t = Some (o1, t1) /\
    Linkedin.get_formatted_results fuel env self t1 = Some (o2, t2) /\
    Z.of_nat (length (page_requests t2)) =
      Z.of_nat (length (page_requests t)) +
      2 * reads_needed (length items) (Linkedin.page_size self).
Proof.
  intros Hps Hds Hserves Hfuel.
  assert (Hrun : forall t0, exists t0',
             get_all_profiles fuel env self t0 = Some (Return items, t0') /\
             Z.of_nat (length (page_requests t0')) =
               Z.of_nat (length (page_requests t0)) +
               reads_needed (length items) (Linkedin.page_size self)).
  { intros t0.
    destruct (get_all_profiles_loop_serves env self ds items Hps Hds Hserves
                fuel [] 0 t0) as (t0' & H & Hn); [lia| |].
    - simpl. rewrite drop_0. exact Hfuel.
    - exists t0'. unfold get_all_profiles. rewrite H.
      simpl in *. rewrite drop_0 in *. auto. }
  destruct (Hrun t) as (ta & Ha & Hna).
  assert (Hsave : exists o1 t1,
             Linkedin.save_results fuel env disk self filename t = Some (o1, t1) /\
             page_requests t1 = page_requests ta).
  { unfold Linkedin.save_results. rewrite Ha.
    destruct (normalise_all items) as [profiles|e].
    - destruct (write_csv_cases disk filename profiles ta)
        as [(e & _ & ->) | (_ & o' & written & ->)].
      + eexists. eexists. split; [reflexivity|].
        rewrite page_requests_app. simpl. apply app_nil_r.
      + destruct o' as [[]|e]; (eexists; eexists; split; [reflexivity|]);
          rewrite !page_requests_app; simpl; rewrite !app_nil_r; reflexivity.
    - eexists. eexists. split; [reflexivity|].
      rewrite page_requests_app. simpl. apply app_nil_r. }
  destruct Hsave as (o1 & t1 & Hsave & Hreq1).
  destruct (Hrun t1) as (tb & Hb & Hnb).
  exists o1, t1.
  unfold Linkedin.get_formatted_results. rewrite Hb.
  eexists. eexists. split; [exact Hsave|]. split; [reflexivity|].
  rewrite Hnb, Hreq1, Hna. lia.
Qed.

Lemma linkedin_pipeline_reads_dataset_twice_example :
  exists o1 t1 o2 t2,
    Linkedin.save_results 3 (env_dataset [ada; alan]) disk_ok
      (scraper_on (VStr "ds-1") 100) "linkedin_profiles.csv" [] = Some (o1, t1) /\
    Linkedin.get_formatted_results 3 (env_dataset [ada; alan])
      (scraper_on (VStr "ds-1") 100) t1 = Some (o2, t2) /\
    Z.of_nat (length (page_requests t2)) = 4.
Proof.
  destruct (linkedin_pipeline_reads_dataset_twice (env_dataset [ada; alan]) disk_ok
              (scraper_on (VStr "ds-1") 100) (VStr "ds-1") [ada; alan] 3
              "linkedin_profiles.csv" [])
    as (o1 & t1 & o2 & t2 & H1 & H2 & Hn).
  - simpl. lia.
  - reflexivity.
  - intros t offset limit. reflexivity.
  - simpl. lia.
  - exists o1, t1, o2, t2. split; [exact H1|]. split; [exact H2|].
    rewrite Hn. reflexivity.
Defined.
